(** * A shallow embedding of [src/backend/mock_database.py]

    The module is an in-memory stand-in for a MongoDB collection.  Its
    class [MockCollection] keeps a Python [dict] from document
    identifiers to document bodies and offers [find], [find_one],
    [insert_one], [update_one], [count_documents] and [aggregate];
    [init_mock_database] seeds two collections from literal data.

    Python values are embedded as the inductive type [value]; Python
    dictionaries as association lists in insertion order (the order in
    which [dict.items()] yields the entries); exceptions as the [Raise]
    constructor of [res].  Methods that mutate [self.data] take the store
    and return the new store together with their result, so that the
    state left behind by a call that raises half-way is still visible. *)

From Stdlib Require Import List String Ascii ZArith Bool Lia Permutation Sorted.
Import ListNotations.
Open Scope string_scope.
Open Scope Z_scope.

Set Warnings "-register-all".

(** ** Python values *)

(** The values that occur in documents, queries, updates and pipelines:
    [None], integers, strings, lists and dictionaries with string keys.
    A string is a sequence of characters of the type [ascii].  Booleans,
    floats and tuples, which the seed data and the operators of the module
    do not use, are left out. *)
Inductive value : Type :=
| VNone
| VInt (z : Z)
| VStr (s : string)
| VList (l : list value)
| VDict (d : list (string * value)).

(** A dictionary with string keys, entries in insertion order. *)
Definition dict : Type := list (string * value).

(** The exceptions the module can run into. *)
Inductive exn : Type := KeyError | TypeError | AttributeError.

Inductive res (A : Type) : Type :=
| Ok (a : A)
| Raise (e : exn).
Arguments Ok {A} a.
Arguments Raise {A} e.

Definition bind {A B : Type} (r : res A) (k : A -> res B) : res B :=
  match r with
  | Ok a => k a
  | Raise e => Raise e
  end.

Notation "x <- r ;; k" := (bind r (fun x => k))
  (at level 61, r at next level, right associativity).

(** ** Dictionaries *)

(** [d.get(k)] as an option: the first entry under [k]. *)
Fixpoint dict_get (k : string) (d : dict) : option value :=
  match d with
  | [] => None
  | (k', v) :: d' => if String.eqb k k' then Some v else dict_get k d'
  end.

(** [k in d]. *)
Definition dict_mem (k : string) (d : dict) : bool :=
  match dict_get k d with
  | Some _ => true
  | None => false
  end.

(** [d[k] = v]: an existing key keeps its position, a new key goes last. *)
Fixpoint dict_set (k : string) (v : value) (d : dict) : dict :=
  match d with
  | [] => [(k, v)]
  | (k', v') :: d' =>
      if String.eqb k k' then (k', v) :: d' else (k', v') :: dict_set k v d'
  end.

(** [del d[k]]. *)
Definition dict_del (k : string) (d : dict) : dict :=
  filter (fun kv => negb (String.eqb k (fst kv))) d.

(** [{**base, **d}]: the entries of [d] written into [base] in order. *)
Definition dict_update (base d : dict) : dict :=
  fold_left (fun acc kv => dict_set (fst kv) (snd kv) acc) d base.

(** ** Equality, truth value, hashing *)

(** Python's [==].  Lists compare element by element; dictionaries compare
    as mappings, whatever the order of their entries. *)
Fixpoint py_eq (a b : value) : bool :=
  match a, b with
  | VNone, VNone => true
  | VInt x, VInt y => Z.eqb x y
  | VStr s, VStr t => String.eqb s t
  | VList l, VList m =>
      (fix go (l m : list value) : bool :=
         match l, m with
         | [], [] => true
         | x :: l', y :: m' => py_eq x y && go l' m'
         | _, _ => false
         end) l m
  | VDict d, VDict e =>
      Nat.eqb (List.length d) (List.length e) &&
      (fix all (d : list (string * value)) : bool :=
         match d with
         | [] => true
         | (k, v) :: d' =>
             match dict_get k e with
             | Some w => py_eq v w
             | None => false
             end && all d'
         end) d
  | _, _ => false
  end.

(** [bool(v)]: [None], [0], the empty string, list and dictionary are false. *)
Definition truthy (v : value) : bool :=
  match v with
  | VNone => false
  | VInt z => negb (Z.eqb z 0)
  | VStr s => negb (String.eqb s "")
  | VList l => match l with [] => false | _ => true end
  | VDict d => match d with [] => false | _ => true end
  end.

(** Lists and dictionaries cannot be hashed: using one as a key of a
    [dict] or an element of a [set] raises [TypeError]. *)
Definition hashable (v : value) : bool :=
  match v with
  | VList _ | VDict _ => false
  | _ => true
  end.

(** ** Ordering *)

Inductive cmpop : Type := OLt | OLe | OGt | OGe.

Definition holds (op : cmpop) (c : comparison) : bool :=
  match op, c with
  | OLt, Lt => true
  | OLe, (Lt | Eq) => true
  | OGt, Gt => true
  | OGe, (Gt | Eq) => true
  | _, _ => false
  end.

(** [a < b], [a <= b], [a > b], [a >= b].  Integers and strings are
    ordered; lists are ordered by their first pair of unequal elements, or
    by length; every other pair of operands raises [TypeError]. *)
Fixpoint py_cmp (op : cmpop) (a b : value) : res bool :=
  match a, b with
  | VInt x, VInt y => Ok (holds op (Z.compare x y))
  | VStr s, VStr t => Ok (holds op (String.compare s t))
  | VList l, VList m =>
      (fix go (l m : list value) : res bool :=
         match l, m with
         | [], [] => Ok (holds op Eq)
         | [], _ :: _ => Ok (holds op Lt)
         | _ :: _, [] => Ok (holds op Gt)
         | x :: l', y :: m' => if py_eq x y then go l' m' else py_cmp op x y
         end) l m
  | _, _ => Raise TypeError
  end.

(** ** Membership, subscription, iteration *)

Fixpoint prefixb (p s : string) : bool :=
  match p, s with
  | EmptyString, _ => true
  | String a p', String b s' => Ascii.eqb a b && prefixb p' s'
  | String _ _, EmptyString => false
  end.

(** [p in s] for two strings. *)
Fixpoint substringb (p s : string) : bool :=
  prefixb p s ||
  match s with
  | EmptyString => false
  | String _ s' => substringb p s'
  end.

(** [x in c]. *)
Definition py_in (x c : value) : res bool :=
  match c with
  | VDict d =>
      match x with
      | VStr k => Ok (dict_mem k d)
      | VNone | VInt _ => Ok false
      | VList _ | VDict _ => Raise TypeError
      end
  | VList l => Ok (existsb (fun y => py_eq y x) l)
  | VStr s =>
      match x with
      | VStr p => Ok (substringb p s)
      | _ => Raise TypeError
      end
  | VNone | VInt _ => Raise TypeError
  end.

(** [c[k]] for a string [k]. *)
Definition py_getitem (c : value) (k : string) : res value :=
  match c with
  | VDict d =>
      match dict_get k d with
      | Some v => Ok v
      | None => Raise KeyError
      end
  | _ => Raise TypeError
  end.

(** The characters of a string, each as a string of length one.  A
    character is one [ascii]: strings with characters beyond that range
    are not among the values modelled here. *)
Fixpoint chars (s : string) : list value :=
  match s with
  | EmptyString => []
  | String a s' => VStr (String a EmptyString) :: chars s'
  end.

(** [for x in c]: the elements [c] yields. *)
Definition py_iter (c : value) : res (list value) :=
  match c with
  | VList l => Ok l
  | VDict d => Ok (map (fun kv => VStr (fst kv)) d)
  | VStr s => Ok (chars s)
  | VNone | VInt _ => Raise TypeError
  end.

(** [c.items()]: only dictionaries have the method. *)
Definition py_items (c : value) : res dict :=
  match c with
  | VDict d => Ok d
  | _ => Raise AttributeError
  end.

(** [c.get(k)], with [None] for a missing key. *)
Definition py_get (c : value) (k : string) : res value :=
  match c with
  | VDict d =>
      match dict_get k d with
      | Some v => Ok v
      | None => Ok VNone
      end
  | _ => Raise AttributeError
  end.

(** ** The store behind a collection *)

(** [MockCollection] has one attribute, [self.data]: a dictionary from
    identifiers to document bodies.  Its entries are kept in insertion
    order, which is the order [self.data.items()] walks them in. *)
Definition MockCollection : Type := list (value * dict).

(** The body stored under a key, if there is one. *)
Fixpoint data_find (k : value) (c : MockCollection) : option dict :=
  match c with
  | [] => None
  | (k', body) :: c' => if py_eq k' k then Some body else data_find k c'
  end.

(** [k in self.data]: the key is hashed first. *)
Definition data_mem (k : value) (c : MockCollection) : res bool :=
  if hashable k
  then Ok (match data_find k c with Some _ => true | None => false end)
  else Raise TypeError.

(** [self.data[k]]. *)
Definition data_get (k : value) (c : MockCollection) : res dict :=
  if hashable k
  then match data_find k c with
       | Some body => Ok body
       | None => Raise KeyError
       end
  else Raise TypeError.

(** The store with [body] under [k]: in place when [k] is already a key,
    as a new last entry otherwise. *)
Fixpoint data_put (k : value) (body : dict) (c : MockCollection)
  : MockCollection :=
  match c with
  | [] => [(k, body)]
  | (k', body') :: c' =>
      if py_eq k' k then (k', body) :: c' else (k', body') :: data_put k body c'
  end.

(** [self.data[k] = body]. *)
Definition data_set (k : value) (body : dict) (c : MockCollection)
  : res MockCollection :=
  if hashable k then Ok (data_put k body c) else Raise TypeError.

(** [MockCollection.__init__]: every item is stored whole, its ["_id"]
    entry included, under its identifier. *)
Fixpoint init_loop (c : MockCollection) (items : list value)
  : res MockCollection :=
  match items with
  | [] => Ok c
  | item :: rest =>
      doc_id <- py_getitem item "_id" ;;
      body <- py_items item ;;
      c' <- data_set doc_id body c ;;
      init_loop c' rest
  end.

Definition init (initial_data : list value) : res MockCollection :=
  init_loop [] initial_data.

(** [{"_id": k, **body}]: what [find] and [find_one] hand out. *)
Definition with_id (k : value) (body : dict) : dict :=
  dict_update [("_id", k)] body.

(** ** The query matcher *)

(** [key.split(".")]. *)
Fixpoint split_dot (s : string) : list string :=
  match s with
  | EmptyString => [""]
  | String a s' =>
      if Ascii.eqb a "."%char then "" :: split_dot s'
      else match split_dot s' with
           | h :: t => String a h :: t
           | [] => [String a ""]
           end
  end.

(** The loop over [keys[:-1]]: [None] stands for its [return False]. *)
Fixpoint navigate (current : value) (ks : list string) : res (option value) :=
  match ks with
  | [] => Ok (Some current)
  | k :: ks' =>
      present <- py_in (VStr k) current ;;
      if present
      then next <- py_getitem current k ;; navigate next ks'
      else Ok None
  end.

(** What one round of the loop over [query.items()] does: go on with the
    next entry, or leave [_matches_query] with a result. *)
Inductive flow : Type :=
| Next
| Ret (b : bool).

(** The branch for a key with a dot in it. *)
Definition match_dotted (doc : dict) (key : string) (value : value)
  : res flow :=
  let keys := split_dot key in
  cur <- navigate (VDict doc) (removelast keys) ;;
  match cur with
  | None => Ok (Ret false)
  | Some current =>
      let final_key := last keys "" in
      present <- py_in (VStr final_key) current ;;
      if negb present then Ok (Ret false)
      else
        match value with
        | VDict ops =>
            if dict_mem "$in" ops then
              field <- py_getitem current final_key ;;
              match field with
              | VList l =>
                  wanted <- py_getitem value "$in" ;;
                  items <- py_iter wanted ;;
                  Ok (Ret (existsb
                             (fun item => existsb (fun y => py_eq y item) l)
                             items))
              | _ => Ok (Ret false)
              end
            else if dict_mem "$gte" ops then
              field <- py_getitem current final_key ;;
              bound <- py_getitem value "$gte" ;;
              b <- py_cmp OGe field bound ;;
              Ok (Ret b)
            else if dict_mem "$lte" ops then
              field <- py_getitem current final_key ;;
              bound <- py_getitem value "$lte" ;;
              b <- py_cmp OLe field bound ;;
              Ok (Ret b)
            else Ok Next
        | _ =>
            field <- py_getitem current final_key ;;
            Ok (Ret (py_eq field value))
        end
  end.

(** The loop over the operators of a plain key; [false] stands for its
    [return False]. *)
Fixpoint ops_loop (field : value) (ops : dict) : res bool :=
  match ops with
  | [] => Ok true
  | (op, op_value) :: rest =>
      if String.eqb op "$gte" then
        b <- py_cmp OLt field op_value ;;
        if b then Ok false else ops_loop field rest
      else if String.eqb op "$lte" then
        b <- py_cmp OGt field op_value ;;
        if b then Ok false else ops_loop field rest
      else if String.eqb op "$in" then
        b <- py_in field op_value ;;
        if negb b then Ok false else ops_loop field rest
      else ops_loop field rest
  end.

(** The branch for a key without a dot. *)
Definition match_plain (doc : dict) (key : string) (value : value)
  : res flow :=
  match dict_get key doc with
  | None => Ok (Ret false)
  | Some field =>
      match value with
      | VDict ops =>
          ok <- ops_loop field ops ;;
          Ok (if ok then Next else Ret false)
      | _ => Ok (if negb (py_eq field value) then Ret false else Next)
      end
  end.

Definition match_entry (doc : dict) (key : string) (value : value)
  : res flow :=
  if substringb "." key
  then match_dotted doc key value
  else match_plain doc key value.

(** The loop of [_matches_query], with [return True] after it. *)
Fixpoint matches_loop (doc : dict) (items : dict) : res bool :=
  match items with
  | [] => Ok true
  | (key, value) :: rest =>
      f <- match_entry doc key value ;;
      match f with
      | Ret b => Ok b
      | Next => matches_loop doc rest
      end
  end.

(** [MockCollection._matches_query]. *)
Definition matches_query (doc : dict) (query : value) : res bool :=
  items <- py_items query ;;
  matches_loop doc items.

(** ** Reading *)

Fixpoint find_loop (query : value) (c : MockCollection) : res (list dict) :=
  match c with
  | [] => Ok []
  | (doc_id, doc) :: c' =>
      m <- matches_query doc query ;;
      results <- find_loop query c' ;;
      Ok (if m then with_id doc_id doc :: results else results)
  end.

(** [MockCollection.find]; the default [query=None] is [VNone]. *)
Definition find (c : MockCollection) (query : value) : res (list dict) :=
  if negb (truthy query)
  then Ok (map (fun kv => with_id (fst kv) (snd kv)) c)
  else find_loop query c.

(** The scan of [find_one]: the first document whose body matches. *)
Fixpoint scan (query : value) (c : MockCollection) : res (option dict) :=
  match c with
  | [] => Ok None
  | (doc_id, doc) :: c' =>
      m <- matches_query doc query ;;
      if m then Ok (Some (with_id doc_id doc)) else scan query c'
  end.

(** [isinstance(query, dict) and "_id" in query]. *)
Definition has_id_key (query : value) : bool :=
  match query with
  | VDict q => dict_mem "_id" q
  | _ => false
  end.

(** [MockCollection.find_one]; [None] is the not-found result. *)
Definition find_one (c : MockCollection) (query : value)
  : res (option dict) :=
  if has_id_key query then
    doc_id <- py_getitem query "_id" ;;
    present <- data_mem doc_id c ;;
    if present
    then body <- data_get doc_id c ;; Ok (Some (with_id doc_id body))
    else Ok None
  else scan query c.

(** [MockCollection.count_documents]: [query or {}] goes to [find]. *)
Definition count_documents (c : MockCollection) (query : value) : res Z :=
  results <- find c (if truthy query then query else VDict []) ;;
  Ok (Z.of_nat (List.length results)).

(** ** Writing *)

(** A method that may change [self.data] and may raise: from the store
    before the call to the store after it and the outcome. *)
Definition M (A : Type) : Type := MockCollection -> MockCollection * res A.

Definition ret {A : Type} (a : A) : M A := fun c => (c, Ok a).

Definition bindM {A B : Type} (m : M A) (k : A -> M B) : M B :=
  fun c =>
    match m c with
    | (c', Ok a) => k a c'
    | (c', Raise e) => (c', Raise e)
    end.

Notation "x <~ m ;; k" := (bindM m (fun x => k))
  (at level 61, m at next level, right associativity).

(** A computation that only reads nothing or fails. *)
Definition lift {A : Type} (r : res A) : M A := fun c => (c, r).

(** [self.data[k]], read. *)
Definition read (k : value) : M dict := fun c => (c, data_get k c).

(** The body under the existing key [k] replaced by [body]: what a
    mutation of the object [self.data[k]] amounts to. *)
Definition write (k : value) (body : dict) : M unit :=
  fun c => (data_put k body c, Ok tt).

Fixpoint for_each {A : Type} (f : A -> M unit) (l : list A) : M unit :=
  match l with
  | [] => ret tt
  | x :: l' => _ <~ f x ;; for_each f l'
  end.

(** [MockCollection.insert_one]; the result is the [inserted_id]. *)
Definition insert_one (document : value) : M value :=
  doc_id <~ lift (py_getitem document "_id") ;;
  doc_copy <~ lift (py_items document) ;;
  fun c =>
    match data_set doc_id (dict_del "_id" doc_copy) c with
    | Ok c' => (c', Ok doc_id)
    | Raise e => (c, Raise e)
    end.

(** One round of the [$push] loop. *)
Definition push_one (doc_id : value) (field : string) (v : value) : M unit :=
  body <~ read doc_id ;;
  _ <~ (if dict_mem field body then ret tt
        else write doc_id (dict_set field (VList []) body)) ;;
  body <~ read doc_id ;;
  target <~ lift (py_getitem (VDict body) field) ;;
  match target with
  | VList l => write doc_id (dict_set field (VList (l ++ [v])) body)
  | _ => lift (Raise AttributeError)
  end.

(** [l.remove(v)] for a list that holds [v]: without the first element
    equal to [v]. *)
Fixpoint remove_first (v : value) (l : list value) : list value :=
  match l with
  | [] => []
  | y :: l' => if py_eq y v then l' else y :: remove_first v l'
  end.

(** One round of the [$pull] loop. *)
Definition pull_one (doc_id : value) (field : string) (v : value) : M unit :=
  body <~ read doc_id ;;
  match dict_get field body with
  | Some (VList l) =>
      if existsb (fun y => py_eq y v) l
      then write doc_id (dict_set field (VList (remove_first v l)) body)
      else ret tt
  | _ => ret tt
  end.

(** The block under [if op in update]. *)
Definition apply_op (op : string) (step : string -> value -> M unit)
  (update : value) : M unit :=
  present <~ lift (py_in (VStr op) update) ;;
  if present then
    entries <~ lift (arg <- py_getitem update op ;; py_items arg) ;;
    for_each (fun fv => step (fst fv) (snd fv)) entries
  else ret tt.

(** [MockCollection.update_one]; the result is the [modified_count]. *)
Definition update_one (query update : value) : M Z :=
  found <~ (fun c => (c, find_one c query)) ;;
  match found with
  | None => ret 0
  | Some doc =>
      if negb (truthy (VDict doc)) then ret 0
      else
        doc_id <~ lift (py_getitem (VDict doc) "_id") ;;
        _ <~ apply_op "$push" (push_one doc_id) update ;;
        _ <~ apply_op "$pull" (pull_one doc_id) update ;;
        ret 1
  end.

(** ** Aggregation *)

(** [s.replace("$", "")]. *)
Fixpoint strip_dollar (s : string) : string :=
  match s with
  | EmptyString => EmptyString
  | String a s' =>
      if Ascii.eqb a "$"%char then strip_dollar s'
      else String a (strip_dollar s')
  end.

(** [v.replace("$", "")]: a method of strings only. *)
Definition py_strip_dollar (v : value) : res string :=
  match v with
  | VStr s => Ok (strip_dollar s)
  | _ => Raise AttributeError
  end.

(** [days.add(day)]; the set is kept as the list of its elements in the
    order they came in. *)
Definition set_add (day : value) (days : list value) : res (list value) :=
  if hashable day
  then Ok (if existsb (fun y => py_eq y day) days then days else (days ++ [day])%list)
  else Raise TypeError.

Fixpoint add_all (new : list value) (days : list value) : res (list value) :=
  match new with
  | [] => Ok days
  | day :: rest => days' <- set_add day days ;; add_all rest days'
  end.

(** The loop over [self.data.values()] that collects the days. *)
Fixpoint collect_days (c : MockCollection) (days : list value)
  : res (list value) :=
  match c with
  | [] => Ok days
  | (_, doc) :: c' =>
      match dict_get "schedule_details" doc with
      | None => collect_days c' days
      | Some details =>
          present <- py_in (VStr "days") details ;;
          if present then
            listed <- py_getitem details "days" ;;
            new <- py_iter listed ;;
            days' <- add_all new days ;;
            collect_days c' days'
          else collect_days c' days
      end
  end.

Definition day_order : list value :=
  [VStr "Monday"; VStr "Tuesday"; VStr "Wednesday"; VStr "Thursday";
   VStr "Friday"; VStr "Saturday"; VStr "Sunday"].

(** [l.index(x)] for an [x] in [l]. *)
Fixpoint index (x : value) (l : list value) : Z :=
  match l with
  | [] => 0
  | y :: l' => if py_eq y x then 0 else 1 + index x l'
  end.

(** The sort key: [day_order.index(x) if x in day_order else 999]. *)
Definition day_key (x : value) : Z :=
  if existsb (fun y => py_eq y x) day_order then index x day_order else 999.

(** [sorted(l, key=key)]: a stable sort, here by insertion from the right;
    an element goes in front of the first one whose key is not smaller. *)
Fixpoint insert_sorted (key : value -> Z) (x : value) (l : list value)
  : list value :=
  match l with
  | [] => [x]
  | y :: l' =>
      if Z.leb (key x) (key y) then x :: y :: l'
      else y :: insert_sorted key x l'
  end.

Fixpoint sorted (key : value -> Z) (l : list value) : list value :=
  match l with
  | [] => []
  | x :: l' => insert_sorted key x (sorted key l')
  end.

Section Aggregate.

(** The order in which Python walks a [set] depends on the hashes of its
    elements, which change from one process to the next for strings.
    [set_order] is that order: it takes the elements in the order they
    were added and yields them in the order the set is iterated. *)
Variable set_order : list value -> list value.

(** [MockCollection.aggregate]. *)
Definition aggregate (c : MockCollection) (pipeline : list value)
  : res (list dict) :=
  match pipeline with
  | stage0 :: stage1 :: _ =>
      unwind <- py_get stage0 "$unwind" ;;
      if truthy unwind then
        group <- py_get stage1 "$group" ;;
        if truthy group then
          arg <- py_getitem stage0 "$unwind" ;;
          unwind_field <- py_strip_dollar arg ;;
          if String.eqb unwind_field "schedule_details.days" then
            days <- collect_days c [] ;;
            let sorted_days := sorted day_key (set_order days) in
            Ok (map (fun day => [("_id", day)]) sorted_days)
          else Ok []
        else Ok []
      else Ok []
  | _ => Ok []
  end.

End Aggregate.

(** ** The seed data *)

(** The shape every literal of [initial_activities] has, its keys in the
    order of the source. *)
Definition activity (name description schedule : string)
  (days : list string) (start_time end_time : string)
  (max_participants : Z) (participants : list string) : value :=
  VDict
    [("_id", VStr name);
     ("description", VStr description);
     ("schedule", VStr schedule);
     ("schedule_details",
       VDict [("days", VList (map VStr days));
              ("start_time", VStr start_time);
              ("end_time", VStr end_time)]);
     ("max_participants", VInt max_participants);
     ("participants", VList (map VStr participants))].

Definition initial_activities : list value :=
  [activity "Chess Club"
     "Learn strategies and compete in chess tournaments"
     "Mondays and Fridays, 3:15 PM - 4:45 PM"
     ["Monday"; "Friday"] "15:15" "16:45" 12
     ["michael@mergington.edu"; "daniel@mergington.edu"];
   activity "Programming Class"
     "Learn programming fundamentals and build software projects"
     "Tuesdays and Thursdays, 7:00 AM - 8:00 AM"
     ["Tuesday"; "Thursday"] "07:00" "08:00" 20
     ["emma@mergington.edu"; "sophia@mergington.edu"];
   activity "Morning Fitness"
     "Early morning physical training and exercises"
     "Mondays, Wednesdays, Fridays, 6:30 AM - 7:45 AM"
     ["Monday"; "Wednesday"; "Friday"] "06:30" "07:45" 30
     ["john@mergington.edu"; "olivia@mergington.edu"];
   activity "Soccer Team"
     "Join the school soccer team and compete in matches"
     "Tuesdays and Thursdays, 3:30 PM - 5:30 PM"
     ["Tuesday"; "Thursday"] "15:30" "17:30" 22
     ["liam@mergington.edu"; "noah@mergington.edu"];
   activity "Basketball Team"
     "Practice and compete in basketball tournaments"
     "Wednesdays and Fridays, 3:15 PM - 5:00 PM"
     ["Wednesday"; "Friday"] "15:15" "17:00" 15
     ["ava@mergington.edu"; "mia@mergington.edu"];
   activity "Art Club"
     "Explore various art techniques and create masterpieces"
     "Thursdays, 3:15 PM - 5:00 PM"
     ["Thursday"] "15:15" "17:00" 15
     ["amelia@mergington.edu"; "harper@mergington.edu"];
   activity "Drama Club"
     "Act, direct, and produce plays and performances"
     "Mondays and Wednesdays, 3:30 PM - 5:30 PM"
     ["Monday"; "Wednesday"] "15:30" "17:30" 20
     ["ella@mergington.edu"; "scarlett@mergington.edu"];
   activity "Math Club"
     "Solve challenging problems and prepare for math competitions"
     "Tuesdays, 7:15 AM - 8:00 AM"
     ["Tuesday"] "07:15" "08:00" 10
     ["james@mergington.edu"; "benjamin@mergington.edu"];
   activity "Debate Team"
     "Develop public speaking and argumentation skills"
     "Fridays, 3:30 PM - 5:30 PM"
     ["Friday"] "15:30" "17:30" 12
     ["charlotte@mergington.edu"; "amelia@mergington.edu"];
   activity "Weekend Robotics Workshop"
     "Build and program robots in our state-of-the-art workshop"
     "Saturdays, 10:00 AM - 2:00 PM"
     ["Saturday"] "10:00" "14:00" 15
     ["ethan@mergington.edu"; "oliver@mergington.edu"];
   activity "Science Olympiad"
     "Weekend science competition preparation for regional and state events"
     "Saturdays, 1:00 PM - 4:00 PM"
     ["Saturday"] "13:00" "16:00" 18
     ["isabella@mergington.edu"; "lucas@mergington.edu"];
   activity "Sunday Chess Tournament"
     "Weekly tournament for serious chess players with rankings"
     "Sundays, 2:00 PM - 5:00 PM"
     ["Sunday"] "14:00" "17:00" 16
     ["william@mergington.edu"; "jacob@mergington.edu"];
   activity "Manga Maniacs"
     "Explore the fantastic stories of the most interesting characters from Japanese Manga (graphic novels)"
     "Tuesdays, 7:00 PM - 8:00 PM"
     ["Tuesday"] "19:00" "20:00" 15
     []].

Section Seeding.

(** [hash_password] calls argon2's [PasswordHasher.hash], which is not
    part of this module: the hash of a password is whatever string the
    library returns. *)
Variable hash_password : string -> string.

Definition teacher (name display_name password role : string) : value :=
  VDict
    [("_id", VStr name);
     ("display_name", VStr display_name);
     ("password", VStr (hash_password password));
     ("role", VStr role)].

Definition initial_teachers : list value :=
  [teacher "mrodriguez" "Ms. Rodriguez" "art123" "teacher";
   teacher "mchen" "Mr. Chen" "chess456" "teacher";
   teacher "principal" "Principal Martinez" "admin789" "admin"].

(** [init_mock_database]: the activities and the teachers collection. *)
Definition init_mock_database : res (MockCollection * MockCollection) :=
  activities_collection <- init initial_activities ;;
  teachers_collection <- init initial_teachers ;;
  Ok (activities_collection, teachers_collection).

End Seeding.

(** ** Vocabulary of the statements *)

(** The query [{"_id": k}]. *)
Definition by_id (k : value) : value := VDict [("_id", k)].

(** The update [{"$push": {field: v}}]. *)
Definition push (field : string) (v : value) : value :=
  VDict [("$push", VDict [(field, v)])].

(** The update [{"$pull": {field: v}}]. *)
Definition pull (field : string) (v : value) : value :=
  VDict [("$pull", VDict [(field, v)])].

(** A Python dictionary holds a key once. *)
Definition is_dict (d : dict) : Prop := NoDup (map fst d).

(** The query leads [update_one] to the document stored under [k]:
    [find_one] hands out a document and its ["_id"] entry is [k]. *)
Definition resolves_to (c : MockCollection) (query k : value) : Prop :=
  exists doc, find_one c query = Ok (Some doc) /\ dict_get "_id" doc = Some k.

(** One entry of a query taken on its own. *)
Definition entry_matches (doc : dict) (key : string) (v : value) : res bool :=
  matches_query doc (VDict [(key, v)]).

(** A sequence of [update_one] calls, whatever each of them returns or
    raises. *)
Fixpoint run_updates (calls : list (value * value)) (c : MockCollection)
  : MockCollection :=
  match calls with
  | [] => c
  | (query, update) :: rest => run_updates rest (fst (update_one query update c))
  end.

(** The update has a [$push] that names the field ["_id"]. *)
Definition pushes_id (update : value) : bool :=
  match update with
  | VDict u =>
      match dict_get "$push" u with
      | Some (VDict fields) => dict_mem "_id" fields
      | _ => false
      end
  | _ => false
  end.

(** The seeded activities collection. *)
Definition seeded_activities : MockCollection :=
  match init initial_activities with
  | Ok c => c
  | Raise _ => []
  end.

(** The seeded teachers collection, for given password hashes. *)
Definition seeded_teachers (hash_password : string -> string)
  : MockCollection :=
  match init (initial_teachers hash_password) with
  | Ok c => c
  | Raise _ => []
  end.

(** A document and a query with a dotted key first and a plain key second:
    the start time is the one asked for, the capacity is not. *)
Definition chess_body : dict :=
  [("schedule_details", VDict [("start_time", VStr "15:15")]);
   ("max_participants", VInt 12)].

Definition chess_query : value :=
  VDict [("schedule_details.start_time", VStr "15:15");
         ("max_participants", VInt 99)].

(** A collection with the one document [{"_id": "a"}], inserted by
    [insert_one] into an empty collection. *)
Definition one_document : MockCollection :=
  fst (insert_one (VDict [("_id", VStr "a")]) []).

(** The value of a field of the document stored under [k]. *)
Definition field (name : string) (k : value) (c : MockCollection)
  : option value :=
  match data_find k c with
  | Some body => dict_get name body
  | None => None
  end.

(** [one_document] after [update_one] with a [$push] of 1 on ["_id"]. *)
Definition id_pushed : MockCollection :=
  fst (update_one (by_id (VStr "a")) (push "_id" (VInt 1)) one_document).

(** The first stage unwinds the days of the schedule: its [$unwind]
    operand is a string that, with its dollar signs taken out, is the path
    [schedule_details.days]. *)
Definition unwinds_days (stage : value) : Prop :=
  exists s,
    py_get stage "$unwind" = Ok (VStr s) /\
    strip_dollar s = "schedule_details.days".

(** The stage has a [$group] specification that is not empty. *)
Definition groups (stage : value) : Prop :=
  exists g, py_get stage "$group" = Ok g /\ truthy g = true.

(** The one pipeline shape [aggregate] answers. *)
Definition supported_shape (pipeline : list value) : Prop :=
  exists stage0 stage1 more,
    pipeline = stage0 :: stage1 :: more /\
    unwinds_days stage0 /\ groups stage1.

(** The first two stages are mappings, and the [$unwind] operand of the
    first one, when it has one that is not a false value, is a string. *)
Definition plain_stages (pipeline : list value) : Prop :=
  (forall stage, In stage (firstn 2 pipeline) -> exists d, stage = VDict d) /\
  (forall d arg,
      hd_error pipeline = Some (VDict d) ->
      dict_get "$unwind" d = Some arg ->
      truthy arg = true ->
      exists s, arg = VStr s).

(** A pipeline that unwinds the participants, with the operand of
    [$unwind] in its document form. *)
Definition unwind_participants : list value :=
  [VDict [("$unwind", VDict [("path", VStr "$participants")])];
   VDict [("$group", VDict [("_id", VStr "$participants")])]].

(** The document stored under [k] is read back under [k]: its body is a
    dictionary whose ["_id"] entry, if it has one, is [k]. *)
Definition keeps_id (k : value) (c : MockCollection) : Prop :=
  exists body,
    data_find k c = Some body /\
    is_dict body /\
    (dict_get "_id" body = None \/ dict_get "_id" body = Some k).

(** The dotted key [a.b]. *)
Definition dotted (a b : string) : string := a ++ "." ++ b.

(** The matcher accepts the body: it returns [True]. *)
Definition is_match (doc : dict) (query : value) : bool :=
  match matches_query doc query with
  | Ok true => true
  | _ => false
  end.

(** The documents of a list inserted one after the other, whatever each
    [insert_one] returns or raises. *)
Fixpoint insert_all (documents : list value) (c : MockCollection)
  : MockCollection :=
  match documents with
  | [] => c
  | document :: rest => insert_all rest (fst (insert_one document c))
  end.

(** An item [__init__] can store: a mapping with an ["_id"] entry that
    can be a key. *)
Definition storable (item : value) : Prop :=
  exists d doc_id,
    item = VDict d /\ dict_get "_id" d = Some doc_id /\
    hashable doc_id = true.

(** The keys of the store can all be hashed and none occurs twice. *)
Definition unique_keys (c : MockCollection) : Prop :=
  NoDup (map fst c) /\ Forall (fun k => hashable k = true) (map fst c).

(** No stored body has an ["_id"] entry of its own. *)
Definition bodies_without_id (c : MockCollection) : Prop :=
  Forall (fun kv => dict_get "_id" (snd kv) = None) c.

(** The document lists the day: it is an element of the list under
    [schedule_details.days]. *)
Definition lists_day (doc : dict) (day : value) : Prop :=
  exists details l,
    dict_get "schedule_details" doc = Some (VDict details) /\
    dict_get "days" details = Some (VList l) /\
    In day l.

(** The schedule of the document, when it has one, is a mapping, and its
    days, when it has them, are a list of values that can be hashed. *)
Definition schedule_well_formed (doc : dict) : Prop :=
  match dict_get "schedule_details" doc with
  | None => True
  | Some (VDict details) =>
      match dict_get "days" details with
      | None => True
      | Some (VList l) => Forall (fun day => hashable day = true) l
      | Some _ => False
      end
  | Some _ => False
  end.

(** * Properties *)

(** ** Keys of the store *)

Lemma py_eq_hashable (a b : value) :
  py_eq a b = true -> hashable b = true -> a = b.
Proof.
  destruct b; destruct a; simpl; try discriminate; intros E _.
  - reflexivity.
  - apply Z.eqb_eq in E. now subst.
  - apply String.eqb_eq in E. now subst.
Qed.

Lemma py_eq_refl_hashable (a : value) : hashable a = true -> py_eq a a = true.
Proof.
  destruct a; simpl; try discriminate; intros _.
  - reflexivity.
  - apply Z.eqb_refl.
  - apply String.eqb_refl.
Qed.

Lemma data_find_put_same (k : value) (body : dict) (c : MockCollection) :
  hashable k = true -> data_find k (data_put k body c) = Some body.
Proof.
  intros Hk. induction c as [|[k' b'] c IH]; simpl.
  - now rewrite py_eq_refl_hashable.
  - destruct (py_eq k' k) eqn:E; simpl; rewrite E; auto.
Qed.

Lemma data_find_put_other (k d : value) (body : dict) (c : MockCollection) :
  hashable k = true -> hashable d = true -> d <> k ->
  data_find k (data_put d body c) = data_find k c.
Proof.
  intros Hk Hd Hne. induction c as [|[k' b'] c IH]; simpl.
  - destruct (py_eq d k) eqn:E; auto.
    apply py_eq_hashable in E; auto. contradiction.
  - destruct (py_eq k' d) eqn:E; simpl.
    + apply py_eq_hashable in E; auto. subst k'.
      destruct (py_eq d k) eqn:E'; auto.
      apply py_eq_hashable in E'; auto. contradiction.
    + destruct (py_eq k' k); auto.
Qed.

Lemma data_put_keys (k : value) (body body' : dict) (c : MockCollection) :
  data_find k c = Some body' -> map fst (data_put k body c) = map fst c.
Proof.
  induction c as [|[k' b'] c IH]; simpl; [discriminate|].
  destruct (py_eq k' k); simpl; intros H; [reflexivity|].
  now rewrite IH.
Qed.

Lemma data_find_In (k : value) (body : dict) (c : MockCollection) :
  hashable k = true -> data_find k c = Some body -> In (k, body) c.
Proof.
  intros Hk. induction c as [|[k' b'] c IH]; simpl; [discriminate|].
  destruct (py_eq k' k) eqn:E; intros H.
  - apply py_eq_hashable in E; auto. left. congruence.
  - right. auto.
Qed.

Lemma data_get_find (k : value) (body : dict) (c : MockCollection) :
  data_get k c = Ok body -> hashable k = true /\ data_find k c = Some body.
Proof.
  unfold data_get. destruct (hashable k); [|discriminate].
  destruct (data_find k c); [|discriminate]. intros H. split; congruence.
Qed.

(** ** Entries of a dictionary *)

Lemma dict_get_set_same (k : string) (v : value) (d : dict) :
  dict_get k (dict_set k v d) = Some v.
Proof.
  induction d as [|[k' v'] d IH]; simpl.
  - now rewrite String.eqb_refl.
  - destruct (String.eqb k k') eqn:E; simpl; rewrite E; auto.
Qed.

Lemma dict_get_set_other (k k' : string) (v : value) (d : dict) :
  k <> k' -> dict_get k (dict_set k' v d) = dict_get k d.
Proof.
  intros Hne. induction d as [|[k1 v1] d IH]; simpl.
  - apply String.eqb_neq in Hne. now rewrite Hne.
  - destruct (String.eqb k' k1) eqn:E; simpl.
    + apply String.eqb_eq in E. subst k1.
      apply String.eqb_neq in Hne. now rewrite Hne.
    + now rewrite IH.
Qed.

Lemma dict_set_set (k : string) (u v : value) (d : dict) :
  dict_set k v (dict_set k u d) = dict_set k v d.
Proof.
  induction d as [|[k1 v1] d IH]; simpl.
  - now rewrite String.eqb_refl.
  - destruct (String.eqb k k1) eqn:E; simpl; rewrite E; [reflexivity|].
    now rewrite IH.
Qed.

Lemma dict_get_not_In (k : string) (d : dict) :
  ~ In k (map fst d) -> dict_get k d = None.
Proof.
  induction d as [|[k1 v1] d IH]; simpl; [reflexivity|].
  intros H. destruct (String.eqb k k1) eqn:E.
  - apply String.eqb_eq in E. subst. tauto.
  - apply IH. tauto.
Qed.

Lemma dict_set_keys_In (k k1 : string) (v : value) (d : dict) :
  In k1 (map fst (dict_set k v d)) -> k1 = k \/ In k1 (map fst d).
Proof.
  induction d as [|[k2 v2] d IH]; simpl.
  - intros [H|[]]. now left.
  - destruct (String.eqb k k2) eqn:E; simpl.
    + tauto.
    + intros [H|H]; [tauto|]. apply IH in H. tauto.
Qed.

Lemma dict_set_is_dict (k : string) (v : value) (d : dict) :
  is_dict d -> is_dict (dict_set k v d).
Proof.
  unfold is_dict. induction d as [|[k1 v1] d IH]; simpl; intros H.
  - constructor; [tauto|constructor].
  - inversion H as [|? ? Hn Hd]; subst.
    destruct (String.eqb k k1) eqn:E; simpl.
    + now constructor.
    + constructor; auto.
      intros Hin. apply dict_set_keys_In in Hin. destruct Hin as [->|Hin].
      * now rewrite String.eqb_refl in E.
      * contradiction.
Qed.

(** The entries of [{**base, **d}]: those of [d], then those of [base]. *)
Lemma dict_get_update (k : string) (base d : dict) :
  is_dict d ->
  dict_get k (dict_update base d) =
  match dict_get k d with
  | Some v => Some v
  | None => dict_get k base
  end.
Proof.
  unfold is_dict, dict_update. revert base.
  induction d as [|[k1 v1] d IH]; simpl; intros base H; [reflexivity|].
  inversion H as [|? ? Hn Hd]; subst.
  rewrite IH by assumption.
  destruct (String.eqb k k1) eqn:E.
  - apply String.eqb_eq in E. subst k1.
    rewrite (dict_get_not_In _ _ Hn). apply dict_get_set_same.
  - apply String.eqb_neq in E.
    destruct (dict_get k d); [reflexivity|].
    now apply dict_get_set_other.
Qed.

Lemma with_id_get_id (k : value) (body : dict) :
  is_dict body ->
  dict_get "_id" (with_id k body) =
  match dict_get "_id" body with
  | Some v => Some v
  | None => Some k
  end.
Proof.
  intros H. unfold with_id. rewrite dict_get_update by assumption.
  destruct (dict_get "_id" body); reflexivity.
Qed.

Lemma with_id_nonempty (k : value) (body : dict) : with_id k body <> [].
Proof.
  unfold with_id, dict_update.
  assert (G : forall d base, base <> [] ->
            fold_left (fun acc kv => dict_set (fst kv) (snd kv) acc) d base <> []).
  { induction d as [|[k1 v1] d IH]; simpl; intros base Hb; [assumption|].
    apply IH. destruct base as [|[k2 v2] base]; simpl; [congruence|].
    destruct (String.eqb k1 k2); discriminate. }
  apply G. discriminate.
Qed.

(** ** Seeding *)

Lemma init_activities : init initial_activities = Ok seeded_activities.
Proof. vm_compute. reflexivity. Qed.

Lemma init_teachers (hash_password : string -> string) :
  init (initial_teachers hash_password) = Ok (seeded_teachers hash_password).
Proof. vm_compute. reflexivity. Qed.

(** Seeding never raises. *)
Lemma init_mock_database_ok (hash_password : string -> string) :
  init_mock_database hash_password =
  Ok (seeded_activities, seeded_teachers hash_password).
Proof.
  unfold init_mock_database.
  rewrite init_activities, init_teachers. reflexivity.
Qed.

Lemma count_seeded_activities (query : value) :
  truthy query = false -> count_documents seeded_activities query = Ok 13.
Proof.
  intros H. unfold count_documents, find. rewrite H. cbn [truthy negb bind].
  rewrite length_map. vm_compute. reflexivity.
Qed.

Lemma count_seeded_teachers (hash_password : string -> string)
  (query : value) :
  truthy query = false ->
  count_documents (seeded_teachers hash_password) query = Ok 3.
Proof.
  intros H. unfold count_documents, find. rewrite H. cbn [truthy negb bind].
  rewrite length_map. vm_compute. reflexivity.
Qed.

(** C2, as the code has it: right after [init_mock_database], and whatever
    the password hashes are, [count_documents] with no filter (no argument,
    or the empty query) returns 13 on the activities collection, which is
    seeded from thirteen literals, and 3 on the teachers collection. *)
Theorem seeded_counts (hash_password : string -> string) :
  exists activities teachers,
    init_mock_database hash_password = Ok (activities, teachers) /\
    count_documents activities VNone = Ok 13 /\
    count_documents activities (VDict []) = Ok 13 /\
    count_documents teachers VNone = Ok 3 /\
    count_documents teachers (VDict []) = Ok 3.
Proof.
  exists seeded_activities, (seeded_teachers hash_password).
  split; [apply init_mock_database_ok|].
  repeat split;
    (apply count_seeded_activities || apply count_seeded_teachers);
    reflexivity.
Qed.

(** C2, as the claim states it, fails: the count on the seeded activities
    collection is not 12. *)
Lemma seeded_activities_count_not_12 :
  ~ (forall hash_password activities teachers,
       init_mock_database hash_password = Ok (activities, teachers) ->
       count_documents activities VNone = Ok 12 /\
       count_documents teachers VNone = Ok 3).
Proof.
  intros H.
  destruct (H (fun password => password) _ _ (init_mock_database_ok _))
    as [H12 _].
  rewrite count_seeded_activities in H12 by reflexivity. discriminate.
Qed.

(** ** Sorting the days *)

Lemma insert_sorted_comm (key : value -> Z) (x y : value) (l : list value) :
  key x <> key y ->
  insert_sorted key x (insert_sorted key y l) =
  insert_sorted key y (insert_sorted key x l).
Proof.
  intros Hne. induction l as [|z l IH]; simpl.
  - destruct (Z.leb_spec (key x) (key y)), (Z.leb_spec (key y) (key x));
      try reflexivity; lia.
  - destruct (Z.leb_spec (key y) (key z)), (Z.leb_spec (key x) (key z)); simpl;
      repeat match goal with
             | |- context [Z.leb ?a ?b] => destruct (Z.leb_spec a b)
             end; try reflexivity; try lia.
    now rewrite IH.
Qed.

(** With pairwise different keys, the sorted list does not depend on the
    order the elements come in. *)
Lemma sorted_order_irrelevant (key : value -> Z) (l l' : list value) :
  Permutation l l' -> NoDup (map key l) -> sorted key l = sorted key l'.
Proof.
  induction 1 as [|x l l' _ IH|x y l|l l' l'' P1 IH1 P2 IH2]; intros Hnd.
  - reflexivity.
  - simpl. inversion Hnd; subst. now rewrite IH.
  - simpl. apply insert_sorted_comm.
    inversion Hnd as [|? ? Hn _]; subst. simpl in Hn. intros E. apply Hn.
    left. congruence.
  - rewrite IH1 by assumption. apply IH2.
    apply Permutation_NoDup with (l := map key l); [|assumption].
    now apply Permutation_map.
Qed.

Lemma seeded_days :
  collect_days seeded_activities [] =
  Ok [VStr "Monday"; VStr "Friday"; VStr "Tuesday"; VStr "Thursday";
      VStr "Wednesday"; VStr "Saturday"; VStr "Sunday"].
Proof. vm_compute. reflexivity. Qed.

(** What [aggregate] computes on a pipeline of the supported shape. *)
Lemma aggregate_days (set_order : list value -> list value)
  (c : MockCollection) (group : value) (more : list value) :
  truthy group = true ->
  aggregate set_order c
    (VDict [("$unwind", VStr "$schedule_details.days")]
     :: VDict [("$group", group)] :: more)
  = (days <- collect_days c [] ;;
     Ok (map (fun day => [("_id", day)]) (sorted day_key (set_order days)))).
Proof.
  intros Hgroup. unfold aggregate. cbn. rewrite Hgroup. reflexivity.
Qed.

(** C3: on the seeded activities collection, in whatever order Python
    walks the set of days, a pipeline that starts with the stage
    [{"$unwind": "$schedule_details.days"}] and a [$group] stage (with a
    group specification that is not empty) returns the seven documents
    [{"_id": day}], Monday to Sunday, each once and in that order. *)
Theorem aggregate_seeded_week
  (set_order : list value -> list value)
  (hash_password : string -> string)
  (group : value) (more : list value) :
  (forall l, Permutation (set_order l) l) ->
  truthy group = true ->
  exists activities teachers,
    init_mock_database hash_password = Ok (activities, teachers) /\
    aggregate set_order activities
      (VDict [("$unwind", VStr "$schedule_details.days")]
       :: VDict [("$group", group)] :: more)
    = Ok [[("_id", VStr "Monday")]; [("_id", VStr "Tuesday")];
          [("_id", VStr "Wednesday")]; [("_id", VStr "Thursday")];
          [("_id", VStr "Friday")]; [("_id", VStr "Saturday")];
          [("_id", VStr "Sunday")]].
Proof.
  intros Hperm Hgroup.
  exists seeded_activities, (seeded_teachers hash_password).
  split; [apply init_mock_database_ok|].
  rewrite aggregate_days by assumption.
  rewrite seeded_days. cbn [bind].
  rewrite (sorted_order_irrelevant day_key _ _ (Hperm _)).
  - vm_compute. reflexivity.
  - apply Permutation_NoDup with
      (l := map day_key
              [VStr "Monday"; VStr "Friday"; VStr "Tuesday"; VStr "Thursday";
               VStr "Wednesday"; VStr "Saturday"; VStr "Sunday"]).
    + apply Permutation_map, Permutation_sym, Hperm.
    + vm_compute. repeat constructor; simpl; intuition discriminate.
Qed.

Lemma aggregate_seeded_week_witness :
  exists activities teachers,
    init_mock_database (fun password => password) = Ok (activities, teachers) /\
    aggregate (fun days => days) activities
      [VDict [("$unwind", VStr "$schedule_details.days")];
       VDict [("$group", VDict [("_id", VStr "$schedule_details.days")])]]
    = Ok [[("_id", VStr "Monday")]; [("_id", VStr "Tuesday")];
          [("_id", VStr "Wednesday")]; [("_id", VStr "Thursday")];
          [("_id", VStr "Friday")]; [("_id", VStr "Saturday")];
          [("_id", VStr "Sunday")]].
Proof.
  apply (aggregate_seeded_week (fun days => days) (fun password => password)
           (VDict [("_id", VStr "$schedule_details.days")]) []).
  - intros l. apply Permutation_refl.
  - reflexivity.
Defined.

(** ** The query matcher *)

Lemma match_plain_not_true (doc : dict) (key : string) (v : value) :
  match_plain doc key v <> Ok (Ret true).
Proof.
  unfold match_plain. destruct (dict_get key doc) as [field|]; [|discriminate].
  destruct v; try (destruct (py_eq field _); discriminate).
  destruct (ops_loop field d) as [[|]|]; discriminate.
Qed.

Lemma entry_matches_plain (doc : dict) (key : string) (v : value) :
  substringb "." key = false ->
  entry_matches doc key v =
  (f <- match_plain doc key v ;;
   Ok (match f with Next => true | Ret b => b end)).
Proof.
  intros Hk. unfold entry_matches, matches_query, match_entry.
  cbn [py_items bind matches_loop]. unfold match_entry. rewrite Hk.
  destruct (match_plain doc key v) as [[|b]|e]; reflexivity.
Qed.

(** On a query whose keys have no dot, the matcher is the conjunction of
    its entries. *)
Lemma matches_query_plain_keys (doc : dict) (q : dict) :
  (forall kv, In kv q -> substringb "." (fst kv) = false) ->
  matches_query doc (VDict q) = Ok true <->
  Forall (fun kv => entry_matches doc (fst kv) (snd kv) = Ok true) q.
Proof.
  unfold matches_query. cbn [py_items bind].
  induction q as [|[k v] q IH]; intros Hplain.
  - split; [constructor|reflexivity].
  - assert (Hk : substringb "." k = false) by (apply (Hplain (k, v)); now left).
    assert (Hq : forall kv, In kv q -> substringb "." (fst kv) = false)
      by (intros kv Hin; apply Hplain; now right).
    specialize (IH Hq).
    rewrite Forall_cons_iff. cbn [fst snd].
    rewrite (entry_matches_plain doc k v Hk).
    cbn [matches_loop]. unfold match_entry. rewrite Hk.
    pose proof (match_plain_not_true doc k v) as Hnt.
    destruct (match_plain doc k v) as [[|[|]]|e]; cbn [bind].
    + rewrite IH. tauto.
    + congruence.
    + split; [discriminate|]. intros [H _]. discriminate.
    + split; [discriminate|]. intros [H _]. discriminate.
Qed.

(** C1 fails on the code: with a dotted key in front, the matcher returns
    from inside its loop.  Here the query asks for the start time 15:15 and
    for a capacity of 99; the document has that start time and a capacity
    of 12.  The matcher reports a match, although the entry on the capacity,
    taken on its own, does not match. *)
Theorem matches_query_returns_at_dotted_key :
  matches_query chess_body chess_query = Ok true /\
  entry_matches chess_body "schedule_details.start_time" (VStr "15:15")
    = Ok true /\
  entry_matches chess_body "max_participants" (VInt 99) = Ok false.
Proof. repeat split; vm_compute; reflexivity. Qed.

(** ** [find_one] *)

Lemma find_one_by_key (c : MockCollection) (q : dict) (v : value) :
  dict_get "_id" q = Some v ->
  find_one c (VDict q) =
  (if hashable v
   then Ok (option_map (with_id v) (data_find v c))
   else Raise TypeError).
Proof.
  intros H. unfold find_one, has_id_key, dict_mem, py_getitem.
  rewrite H. cbn [bind]. unfold data_mem, data_get.
  destruct (hashable v); cbn [bind]; [|reflexivity].
  destruct (data_find v c); reflexivity.
Qed.

Lemma find_one_scan_none (c : MockCollection) (query : value) :
  has_id_key query = false ->
  Forall (fun kd => matches_query (snd kd) query = Ok false) c ->
  find_one c query = Ok None.
Proof.
  intros Hid Hall. unfold find_one. rewrite Hid.
  induction Hall as [|[k body] c Hm _ IH]; [reflexivity|].
  cbn [scan]. cbn [snd] in Hm. rewrite Hm. cbn [bind]. exact IH.
Qed.

(** C10, as the code has it: a query with the key ["_id"] is answered by
    the key lookup alone, as if it were [{"_id": v}], whatever else it
    holds.  When [v] can be a key, the answer is the document stored under
    [v], or the not-found result; when [v] is a list or a mapping (an
    operator mapping such as [{"$in": [...]}]), the lookup raises
    [TypeError], so no document is returned, nor the not-found result. *)
Theorem find_one_id_key_lookup (c : MockCollection) (q : dict) (v : value) :
  dict_get "_id" q = Some v ->
  find_one c (VDict q) = find_one c (by_id v) /\
  (hashable v = true ->
   find_one c (VDict q) = Ok (option_map (with_id v) (data_find v c))) /\
  (hashable v = false -> find_one c (VDict q) = Raise TypeError).
Proof.
  intros H. rewrite (find_one_by_key c q v H).
  unfold by_id. rewrite (find_one_by_key c [("_id", v)] v) by reflexivity.
  split; [reflexivity|]. split; intros Hh; now rewrite Hh.
Qed.

Lemma find_one_id_key_lookup_witness :
  find_one seeded_activities
    (VDict [("_id", VStr "Chess Club"); ("max_participants", VInt 0)])
  = find_one seeded_activities (by_id (VStr "Chess Club")) /\
  (hashable (VStr "Chess Club") = true ->
   find_one seeded_activities
     (VDict [("_id", VStr "Chess Club"); ("max_participants", VInt 0)])
   = Ok (option_map (with_id (VStr "Chess Club"))
           (data_find (VStr "Chess Club") seeded_activities))) /\
  (hashable (VStr "Chess Club") = false ->
   find_one seeded_activities
     (VDict [("_id", VStr "Chess Club"); ("max_participants", VInt 0)])
   = Raise TypeError).
Proof.
  apply (find_one_id_key_lookup seeded_activities
           [("_id", VStr "Chess Club"); ("max_participants", VInt 0)]
           (VStr "Chess Club")).
  reflexivity.
Defined.

(** C10, as the claim states it, fails: on the seeded activities the query
    [{"_id": {"$in": ["Chess Club"]}}] makes [find_one] raise [TypeError]
    instead of returning the not-found result, while [find] with the same
    query returns the Chess Club. *)
Lemma find_one_operator_id_raises :
  let query := VDict [("_id", VDict [("$in", VList [VStr "Chess Club"])])] in
  find_one seeded_activities query = Raise TypeError /\
  find_one seeded_activities query <> Ok None /\
  (found <- find seeded_activities query ;;
   Ok (map (dict_get "_id") found)) = Ok [Some (VStr "Chess Club")].
Proof.
  cbv zeta. split; [|split].
  - vm_compute. reflexivity.
  - vm_compute. discriminate.
  - vm_compute. reflexivity.
Qed.

(** ** [insert_one] *)

Lemma dict_get_del_same (k : string) (d : dict) :
  dict_get k (dict_del k d) = None.
Proof.
  unfold dict_del. induction d as [|[k1 v1] d IH]; simpl; [reflexivity|].
  destruct (String.eqb k k1) eqn:E; simpl; [assumption|].
  now rewrite E.
Qed.

Lemma dict_get_del_other (k k' : string) (d : dict) :
  k <> k' -> dict_get k (dict_del k' d) = dict_get k d.
Proof.
  intros Hne. unfold dict_del.
  induction d as [|[k1 v1] d IH]; simpl; [reflexivity|].
  destruct (String.eqb k' k1) eqn:E; simpl.
  - apply String.eqb_eq in E. subst k1.
    apply String.eqb_neq in Hne. now rewrite Hne.
  - now rewrite IH.
Qed.

Lemma dict_del_is_dict (k : string) (d : dict) :
  is_dict d -> is_dict (dict_del k d).
Proof.
  unfold is_dict, dict_del.
  induction d as [|[k1 v1] d IH]; simpl; intros H; [constructor|].
  inversion H as [|? ? Hn Hd]; subst.
  destruct (String.eqb k k1); simpl; auto.
  constructor; auto.
  intros Hin. apply Hn. apply in_map_iff in Hin.
  destruct Hin as (kv & Hk & Hin). apply filter_In in Hin.
  apply in_map_iff. exists kv. tauto.
Qed.

Lemma dict_set_fresh (k : string) (v : value) (d : dict) :
  dict_get k d = None -> dict_set k v d = (d ++ [(k, v)])%list.
Proof.
  induction d as [|[k1 v1] d IH]; simpl; [reflexivity|].
  destruct (String.eqb k k1); [discriminate|].
  intros H. now rewrite IH.
Qed.

(** Entries under new keys are added behind those of [base]. *)
Lemma dict_update_fresh (base d : dict) :
  is_dict d ->
  (forall k, In k (map fst d) -> dict_get k base = None) ->
  dict_update base d = (base ++ d)%list.
Proof.
  unfold is_dict, dict_update. revert base.
  induction d as [|[k1 v1] d IH]; simpl; intros base Hnd Hfresh.
  - now rewrite app_nil_r.
  - inversion Hnd as [|? ? Hn Hd]; subst.
    rewrite dict_set_fresh by (apply Hfresh; now left).
    rewrite IH; auto.
    + now rewrite <- app_assoc.
    + intros k Hin.
      assert (Hb : dict_get k base = None) by (apply Hfresh; now right).
      assert (Hne : k <> k1) by (intros ->; contradiction).
      rewrite <- (dict_set_fresh k1 v1 base) by (apply Hfresh; now left).
      now rewrite dict_get_set_other.
Qed.

Lemma dict_get_In_key (k : string) (d : dict) :
  dict_get k d = None -> ~ In k (map fst d).
Proof.
  induction d as [|[k1 v1] d IH]; simpl; [tauto|].
  destruct (String.eqb k k1) eqn:E; [discriminate|].
  apply String.eqb_neq in E. intros H [H1|H1]; [congruence|]. now apply IH.
Qed.

(** What [insert_one] does to the store. *)
Lemma insert_one_ok (c : MockCollection) (doc : dict) (doc_id : value) :
  dict_get "_id" doc = Some doc_id ->
  hashable doc_id = true ->
  insert_one (VDict doc) c =
  (data_put doc_id (dict_del "_id" doc) c, Ok doc_id).
Proof.
  intros Hid Hh. unfold insert_one, bindM, lift, py_getitem, py_items, data_set.
  rewrite Hid, Hh. reflexivity.
Qed.

(** An identifier that cannot be a key makes [insert_one] raise; the
    store stays as it was. *)
Lemma insert_one_unhashable (c : MockCollection) (doc : dict)
  (doc_id : value) :
  dict_get "_id" doc = Some doc_id ->
  hashable doc_id = false ->
  insert_one (VDict doc) c = (c, Raise TypeError).
Proof.
  intros Hid Hh. unfold insert_one, bindM, lift, py_getitem, py_items, data_set.
  rewrite Hid, Hh. reflexivity.
Qed.

(** C4, as the code has it: a document whose identifier can be a key of
    the store ([None], an integer or a string) is inserted, and [find_one]
    with a query on that identifier, right after, finds it: the result has
    every field of the inserted document with the same value, the
    identifier among them; it is the identifier followed by the other
    fields in their order. *)
Theorem insert_one_then_find_one
  (c : MockCollection) (doc q : dict) (doc_id : value) :
  is_dict doc ->
  dict_get "_id" doc = Some doc_id ->
  hashable doc_id = true ->
  dict_get "_id" q = Some doc_id ->
  exists c' found,
    insert_one (VDict doc) c = (c', Ok doc_id) /\
    find_one c' (VDict q) = Ok (Some found) /\
    (forall k, dict_get k found = dict_get k doc) /\
    dict_get "_id" found = Some doc_id /\
    found = ("_id", doc_id) :: dict_del "_id" doc.
Proof.
  intros Hd Hid Hh Hq.
  exists (data_put doc_id (dict_del "_id" doc) c).
  exists (with_id doc_id (dict_del "_id" doc)).
  split; [now apply insert_one_ok|].
  split.
  { rewrite (find_one_by_key _ q doc_id Hq), Hh.
    now rewrite data_find_put_same. }
  assert (Hdel : is_dict (dict_del "_id" doc)) by now apply dict_del_is_dict.
  assert (Hget : forall k,
             dict_get k (with_id doc_id (dict_del "_id" doc)) = dict_get k doc).
  { intros k. unfold with_id. rewrite dict_get_update by assumption.
    destruct (String.eqb k "_id") eqn:E.
    - apply String.eqb_eq in E. subst k.
      rewrite dict_get_del_same. simpl. now rewrite Hid.
    - apply String.eqb_neq in E. rewrite dict_get_del_other by assumption.
      destruct (dict_get k doc); [reflexivity|].
      simpl. apply String.eqb_neq in E. now rewrite E. }
  split; [exact Hget|]. split; [now rewrite Hget|].
  unfold with_id. apply dict_update_fresh; [assumption|].
  intros k Hin. simpl. destruct (String.eqb k "_id") eqn:E; [|reflexivity].
  apply String.eqb_eq in E. subst k.
  exfalso. revert Hin. apply dict_get_In_key, dict_get_del_same.
Qed.

Lemma insert_one_then_find_one_witness :
  exists c' found,
    insert_one
      (VDict [("description", VStr "Knitting"); ("_id", VStr "Knitting Club");
              ("participants", VList [])])
      seeded_activities = (c', Ok (VStr "Knitting Club")) /\
    find_one c' (VDict [("_id", VStr "Knitting Club")]) = Ok (Some found) /\
    (forall k,
        dict_get k found =
        dict_get k [("description", VStr "Knitting");
                    ("_id", VStr "Knitting Club");
                    ("participants", VList [])]) /\
    dict_get "_id" found = Some (VStr "Knitting Club") /\
    found =
    ("_id", VStr "Knitting Club")
    :: dict_del "_id" [("description", VStr "Knitting");
                       ("_id", VStr "Knitting Club");
                       ("participants", VList [])].
Proof.
  apply (insert_one_then_find_one seeded_activities
           [("description", VStr "Knitting"); ("_id", VStr "Knitting Club");
            ("participants", VList [])]
           [("_id", VStr "Knitting Club")] (VStr "Knitting Club")).
  - unfold is_dict. simpl.
    repeat constructor; simpl; intuition discriminate.
  - reflexivity.
  - reflexivity.
  - reflexivity.
Defined.

(** C4, as the claim states it, fails: a document whose identifier is a
    mapping carries an identifier field, but [insert_one] raises
    [TypeError] on it and stores nothing, and [find_one] with the query on
    that identifier raises [TypeError] as well instead of returning the
    document. *)
Lemma insert_one_mapping_id_raises :
  dict_get "_id"
    [("_id", VDict [("club", VStr "Chess"); ("year", VInt 2024)]);
     ("participants", VList [])]
  = Some (VDict [("club", VStr "Chess"); ("year", VInt 2024)]) /\
  insert_one
    (VDict [("_id", VDict [("club", VStr "Chess"); ("year", VInt 2024)]);
            ("participants", VList [])]) []
  = ([], Raise TypeError) /\
  find_one
    (fst (insert_one
            (VDict [("_id", VDict [("club", VStr "Chess"); ("year", VInt 2024)]);
                    ("participants", VList [])]) []))
    (by_id (VDict [("club", VStr "Chess"); ("year", VInt 2024)]))
  = Raise TypeError.
Proof. repeat split. Qed.

(** ** [update_one] *)

(** When [find_one] finds no document for the query, [update_one]
    returns the modified count 0 and the store is the one it was. *)
Lemma update_one_not_found (c : MockCollection) (query update : value) :
  find_one c query = Ok None ->
  update_one query update c = (c, Ok 0).
Proof.
  intros H. unfold update_one, bindM. now rewrite H.
Qed.

(** C5, as the code has it: [update_one] returns the modified count 0 and
    leaves the store as it was for a query without the key ["_id"] that
    the matcher rejects on every stored body, and for a query with the key
    ["_id"] whose value can be hashed and is not a key of the store. *)
Theorem update_one_without_match
  (c : MockCollection) (query update : value) :
  (has_id_key query = false /\
   Forall (fun kv => matches_query (snd kv) query = Ok false) c) \/
  (exists q v,
      query = VDict q /\ dict_get "_id" q = Some v /\
      hashable v = true /\ data_find v c = None) ->
  update_one query update c = (c, Ok 0).
Proof.
  intros H. apply update_one_not_found.
  destruct H as [[Hid Hall]|(q & v & -> & Hv & Hh & Hnone)].
  - now apply find_one_scan_none.
  - rewrite (find_one_by_key c q v Hv), Hh, Hnone. reflexivity.
Qed.

Lemma update_one_without_match_witness :
  update_one (VDict [("role", VStr "student")])
    (push "classes" (VStr "Art")) (seeded_teachers (fun password => password))
  = (seeded_teachers (fun password => password), Ok 0).
Proof.
  apply (update_one_without_match (seeded_teachers (fun password => password))
           (VDict [("role", VStr "student")]) (push "classes" (VStr "Art"))).
  left. split; [reflexivity|]. vm_compute. repeat constructor.
Defined.

(** C5, as the claim states it, fails: on the seeded activities the
    matcher rejects the query
    [{"_id": "Chess Club", "max_participants": 0}] on every stored body,
    and [find] returns nothing for it, but [update_one] goes by the key
    alone, pushes the participant onto the Chess Club and returns the
    modified count 1. *)
Lemma update_one_modifies_unmatched :
  Forall
    (fun kv =>
       matches_query (snd kv)
         (VDict [("_id", VStr "Chess Club"); ("max_participants", VInt 0)])
       = Ok false)
    seeded_activities /\
  find seeded_activities
    (VDict [("_id", VStr "Chess Club"); ("max_participants", VInt 0)])
  = Ok [] /\
  snd (update_one
         (VDict [("_id", VStr "Chess Club"); ("max_participants", VInt 0)])
         (push "participants" (VStr "zoe@mergington.edu")) seeded_activities)
  = Ok 1 /\
  field "participants" (VStr "Chess Club") seeded_activities
  = Some (VList [VStr "michael@mergington.edu"; VStr "daniel@mergington.edu"]) /\
  field "participants" (VStr "Chess Club")
    (fst (update_one
            (VDict [("_id", VStr "Chess Club"); ("max_participants", VInt 0)])
            (push "participants" (VStr "zoe@mergington.edu"))
            seeded_activities))
  = Some (VList [VStr "michael@mergington.edu"; VStr "daniel@mergington.edu";
                 VStr "zoe@mergington.edu"]).
Proof.
  split; [vm_compute; repeat constructor|].
  repeat split; vm_compute; reflexivity.
Qed.

Lemma data_put_put (k : value) (b1 b2 : dict) (c : MockCollection) :
  hashable k = true ->
  data_put k b2 (data_put k b1 c) = data_put k b2 c.
Proof.
  intros Hk. induction c as [|[k' b'] c IH]; simpl.
  - now rewrite py_eq_refl_hashable.
  - destruct (py_eq k' k) eqn:E; simpl; rewrite E; [reflexivity|].
    now rewrite IH.
Qed.

Lemma data_get_put_same (k : value) (body : dict) (c : MockCollection) :
  hashable k = true -> data_get k (data_put k body c) = Ok body.
Proof.
  intros Hk. unfold data_get. now rewrite Hk, data_find_put_same.
Qed.

(** Once [find_one] has found a document, the update works on the body
    stored under the ["_id"] entry of what was found. *)
Lemma update_one_found (c : MockCollection) (query update : value)
  (k : value) :
  resolves_to c query k ->
  update_one query update c =
  (_ <~ apply_op "$push" (push_one k) update ;;
   _ <~ apply_op "$pull" (pull_one k) update ;;
   ret 1) c.
Proof.
  intros (doc & Hfind & Hid). unfold update_one.
  unfold bindM at 1. rewrite Hfind.
  destruct doc as [|entry doc]; [discriminate|].
  cbn [truthy negb]. unfold bindM at 1. unfold lift, py_getitem.
  now rewrite Hid.
Qed.

Lemma update_one_push (c : MockCollection) (query : value) (k : value)
  (name : string) (v : value) :
  resolves_to c query k ->
  update_one query (push name v) c =
  match push_one k name v c with
  | (c', Ok _) => (c', Ok 1)
  | (c', Raise e) => (c', Raise e)
  end.
Proof.
  intros H. rewrite (update_one_found c query _ k H).
  remember (push_one k) as step eqn:Hstep.
  unfold push, apply_op, bindM, lift, ret. cbn. unfold bindM, ret.
  destruct (step name v c) as [c' [[]|e]]; reflexivity.
Qed.

Lemma update_one_pull (c : MockCollection) (query : value) (k : value)
  (name : string) (v : value) :
  resolves_to c query k ->
  update_one query (pull name v) c =
  match pull_one k name v c with
  | (c', Ok _) => (c', Ok 1)
  | (c', Raise e) => (c', Raise e)
  end.
Proof.
  intros H. rewrite (update_one_found c query _ k H).
  remember (pull_one k) as step eqn:Hstep.
  unfold pull, apply_op, bindM, lift, ret. cbn. unfold bindM, ret.
  destruct (step name v c) as [c' [[]|e]]; reflexivity.
Qed.

(** One round of the [$push] loop on a stored body. *)
Lemma push_one_spec (c : MockCollection) (k : value) (body : dict)
  (name : string) (v : value) :
  data_get k c = Ok body ->
  push_one k name v c =
  match dict_get name body with
  | None => (data_put k (dict_set name (VList [v]) body) c, Ok tt)
  | Some (VList l) =>
      (data_put k (dict_set name (VList (l ++ [v])) body) c, Ok tt)
  | Some _ => (c, Raise AttributeError)
  end.
Proof.
  intros Hget. destruct (data_get_find _ _ _ Hget) as [Hk _].
  unfold push_one, bindM, read, write, lift, ret, dict_mem, py_getitem.
  rewrite Hget. destruct (dict_get name body) as [x|] eqn:E.
  - rewrite Hget, E. destruct x; reflexivity.
  - rewrite data_get_put_same by assumption.
    rewrite dict_get_set_same, dict_set_set, data_put_put by assumption.
    reflexivity.
Qed.

(** One round of the [$pull] loop on a stored body. *)
Lemma pull_one_spec (c : MockCollection) (k : value) (body : dict)
  (name : string) (v : value) :
  data_get k c = Ok body ->
  pull_one k name v c =
  match dict_get name body with
  | Some (VList l) =>
      if existsb (fun y => py_eq y v) l
      then (data_put k (dict_set name (VList (remove_first v l)) body) c, Ok tt)
      else (c, Ok tt)
  | _ => (c, Ok tt)
  end.
Proof.
  intros Hget. unfold pull_one, bindM, read, write, ret. rewrite Hget.
  destruct (dict_get name body) as [[| | |l|]|]; try reflexivity.
  destruct (existsb (fun y => py_eq y v) l); reflexivity.
Qed.

Lemma field_put (name : string) (k : value) (body : dict)
  (c : MockCollection) :
  hashable k = true ->
  field name k (data_put k body c) = dict_get name body.
Proof.
  intros Hk. unfold field. now rewrite data_find_put_same.
Qed.

Lemma resolves_by_id (c : MockCollection) (k : value) (body : dict) :
  data_get k c = Ok body ->
  resolves_to c (by_id k) k <-> dict_get "_id" (with_id k body) = Some k.
Proof.
  intros Hget. destruct (data_get_find _ _ _ Hget) as [Hk Hfind].
  unfold resolves_to, by_id.
  rewrite (find_one_by_key c [("_id", k)] k) by reflexivity.
  rewrite Hk, Hfind. cbn [option_map]. split.
  - intros (doc & Hdoc & Hid). congruence.
  - intros Hid. eexists. split; [reflexivity|assumption].
Qed.

Lemma with_id_set_fresh (k : value) (body : dict) (name : string)
  (x : value) :
  dict_get name body = None ->
  name <> "_id" ->
  dict_get "_id" (with_id k (dict_set name x body)) =
  dict_get "_id" (with_id k body).
Proof.
  intros Hnone Hname. unfold with_id, dict_update.
  rewrite (dict_set_fresh name x body Hnone), fold_left_app.
  cbn [fold_left fst snd]. apply dict_get_set_other.
  intros E. apply Hname. now symmetry.
Qed.

(** C6, as the code has it: take a document stored under [k] that is
    read back under [k] (a query on its identifier resolves to it), a
    field [name] other than ["_id"] that its body does not have, and an
    [update_one] that works on this document.  A [$push] of [v] on [name]
    makes the field the list [[v]], the rest of the body as it was.  A
    later [$push] of [w] on [name], by the query on the identifier or by
    any other query that resolves to the document, makes the field
    [[v; w]]: the two values in the order they were pushed. *)
Theorem push_creates_then_appends
  (c : MockCollection) (q1 k : value) (body : dict) (name : string)
  (v w : value) :
  resolves_to c q1 k ->
  resolves_to c (by_id k) k ->
  data_get k c = Ok body ->
  dict_get name body = None ->
  name <> "_id" ->
  exists c1 c2,
    update_one q1 (push name v) c = (c1, Ok 1) /\
    data_get k c1 = Ok (dict_set name (VList [v]) body) /\
    field name k c1 = Some (VList [v]) /\
    update_one (by_id k) (push name w) c1 = (c2, Ok 1) /\
    data_get k c2 = Ok (dict_set name (VList [v; w]) body) /\
    field name k c2 = Some (VList [v; w]) /\
    (forall q2,
        resolves_to c1 q2 k -> update_one q2 (push name w) c1 = (c2, Ok 1)).
Proof.
  intros Hres Hbyid Hget Hnone Hname.
  destruct (data_get_find _ _ _ Hget) as [Hk Hfind].
  exists (data_put k (dict_set name (VList [v]) body) c).
  exists (data_put k (dict_set name (VList [v; w]) body) c).
  assert (Hget1 : data_get k (data_put k (dict_set name (VList [v]) body) c)
                  = Ok (dict_set name (VList [v]) body))
    by now apply data_get_put_same.
  assert (Hbyid1 : resolves_to
                     (data_put k (dict_set name (VList [v]) body) c)
                     (by_id k) k).
  { apply (resolves_by_id _ _ _ Hget1).
    rewrite with_id_set_fresh by assumption.
    now apply (resolves_by_id _ _ _ Hget). }
  assert (Hsecond : forall q2,
             resolves_to (data_put k (dict_set name (VList [v]) body) c) q2 k ->
             update_one q2 (push name w)
               (data_put k (dict_set name (VList [v]) body) c)
             = (data_put k (dict_set name (VList [v; w]) body) c, Ok 1)).
  { intros q2 Hres2. rewrite (update_one_push _ q2 k name w Hres2).
    rewrite (push_one_spec _ k _ name w Hget1), dict_get_set_same.
    rewrite dict_set_set, data_put_put by assumption. reflexivity. }
  split; [|split; [|split; [|split; [|split; [|split]]]]].
  - rewrite (update_one_push c q1 k name v Hres).
    now rewrite (push_one_spec c k body name v Hget), Hnone.
  - exact Hget1.
  - rewrite field_put by assumption. apply dict_get_set_same.
  - now apply Hsecond.
  - now apply data_get_put_same.
  - rewrite field_put by assumption. apply dict_get_set_same.
  - exact Hsecond.
Qed.

Lemma push_creates_then_appends_witness :
  exists c1 c2,
    update_one (VDict [("role", VStr "admin")]) (push "classes" (VStr "Art"))
      (seeded_teachers (fun password => password)) = (c1, Ok 1) /\
    data_get (VStr "principal") c1 =
    Ok (dict_set "classes" (VList [VStr "Art"])
          [("_id", VStr "principal");
           ("display_name", VStr "Principal Martinez");
           ("password", VStr "admin789"); ("role", VStr "admin")]) /\
    field "classes" (VStr "principal") c1 = Some (VList [VStr "Art"]) /\
    update_one (by_id (VStr "principal")) (push "classes" (VStr "Music")) c1
    = (c2, Ok 1) /\
    data_get (VStr "principal") c2 =
    Ok (dict_set "classes" (VList [VStr "Art"; VStr "Music"])
          [("_id", VStr "principal");
           ("display_name", VStr "Principal Martinez");
           ("password", VStr "admin789"); ("role", VStr "admin")]) /\
    field "classes" (VStr "principal") c2
    = Some (VList [VStr "Art"; VStr "Music"]) /\
    (forall q2,
        resolves_to c1 q2 (VStr "principal") ->
        update_one q2 (push "classes" (VStr "Music")) c1 = (c2, Ok 1)).
Proof.
  apply (push_creates_then_appends
           (seeded_teachers (fun password => password))
           (VDict [("role", VStr "admin")]) (VStr "principal")
           [("_id", VStr "principal");
            ("display_name", VStr "Principal Martinez");
            ("password", VStr "admin789"); ("role", VStr "admin")]
           "classes" (VStr "Art") (VStr "Music")).
  - eexists. split; vm_compute; reflexivity.
  - eexists. split; vm_compute; reflexivity.
  - vm_compute. reflexivity.
  - reflexivity.
  - discriminate.
Defined.

(** C6, as the claim states it, fails for the field ["_id"].  The body of
    an inserted document does not have it; the first push makes it [[1]],
    and from then on the document is handed out with that list as its
    identifier, so no query resolves to the key ["a"] any more: the second
    [update_one] raises [TypeError] and the field stays [[1]] instead of
    becoming [[1; 2]]. *)
Lemma second_push_on_id_raises :
  data_find (VStr "a") one_document = Some [] /\
  field "_id" (VStr "a") one_document = None /\
  update_one (by_id (VStr "a")) (push "_id" (VInt 1)) one_document
  = (id_pushed, Ok 1) /\
  field "_id" (VStr "a") id_pushed = Some (VList [VInt 1]) /\
  update_one (by_id (VStr "a")) (push "_id" (VInt 2)) id_pushed
  = (id_pushed, Raise TypeError) /\
  field "_id" (VStr "a")
    (fst (update_one (by_id (VStr "a")) (push "_id" (VInt 2)) id_pushed))
  <> Some (VList [VInt 1; VInt 2]).
Proof.
  repeat split; try (vm_compute; reflexivity).
  vm_compute. discriminate.
Qed.

Lemma remove_first_split (v : value) (l : list value) :
  existsb (fun y => py_eq y v) l = true ->
  exists before x after,
    l = (before ++ x :: after)%list /\
    py_eq x v = true /\
    existsb (fun y => py_eq y v) before = false /\
    remove_first v l = (before ++ after)%list.
Proof.
  induction l as [|y l IH]; simpl; [discriminate|].
  destruct (py_eq y v) eqn:E.
  - intros _. exists [], y, l. simpl. auto.
  - simpl. intros H. destruct (IH H) as (before & x & after & Hl & Hx & Hb & Hr).
    exists (y :: before), x, after. simpl. rewrite E, Hb, Hr, Hl. auto.
Qed.

(** C7: when [update_one] works on the document stored under [k] (its
    query resolves to it) and the field [name] of its body is a list, a
    [$pull] of a value the list does not hold leaves the list, and the
    whole store, as it was, and a [$pull] of a value it holds takes out
    one element, the first one equal to the value, and nothing else.
    Either way the modified count is 1. *)
Theorem pull_removes_one_occurrence
  (c : MockCollection) (query k : value) (body : dict) (name : string)
  (l : list value) (v : value) :
  resolves_to c query k ->
  data_get k c = Ok body ->
  dict_get name body = Some (VList l) ->
  (existsb (fun y => py_eq y v) l = false ->
   update_one query (pull name v) c = (c, Ok 1)) /\
  (existsb (fun y => py_eq y v) l = true ->
   exists before x after,
     l = (before ++ x :: after)%list /\
     py_eq x v = true /\
     existsb (fun y => py_eq y v) before = false /\
     update_one query (pull name v) c =
     (data_put k (dict_set name (VList (before ++ after)) body) c, Ok 1) /\
     field name k (fst (update_one query (pull name v) c))
     = Some (VList (before ++ after))).
Proof.
  intros Hres Hget Hfield.
  destruct (data_get_find _ _ _ Hget) as [Hk Hfind].
  rewrite (update_one_pull c query k name v Hres).
  rewrite (pull_one_spec c k body name v Hget), Hfield.
  split; intros Hin; rewrite Hin; [reflexivity|].
  destruct (remove_first_split v l Hin) as (before & x & after & Hl & Hx & Hb & Hr).
  exists before, x, after. rewrite Hr. cbn [fst].
  repeat split; try assumption.
  rewrite field_put by assumption. apply dict_get_set_same.
Qed.

Lemma pull_removes_one_occurrence_witness :
  (existsb (fun y => py_eq y (VStr "michael@mergington.edu"))
     [VStr "michael@mergington.edu"; VStr "daniel@mergington.edu";
      VStr "michael@mergington.edu"] = false ->
   update_one (by_id (VStr "Chess"))
     (pull "participants" (VStr "michael@mergington.edu"))
     [(VStr "Chess",
        [("participants",
           VList [VStr "michael@mergington.edu"; VStr "daniel@mergington.edu";
                  VStr "michael@mergington.edu"])])]
   = ([(VStr "Chess",
        [("participants",
           VList [VStr "michael@mergington.edu"; VStr "daniel@mergington.edu";
                  VStr "michael@mergington.edu"])])], Ok 1)) /\
  (existsb (fun y => py_eq y (VStr "michael@mergington.edu"))
     [VStr "michael@mergington.edu"; VStr "daniel@mergington.edu";
      VStr "michael@mergington.edu"] = true ->
   exists before x after,
     [VStr "michael@mergington.edu"; VStr "daniel@mergington.edu";
      VStr "michael@mergington.edu"] = (before ++ x :: after)%list /\
     py_eq x (VStr "michael@mergington.edu") = true /\
     existsb (fun y => py_eq y (VStr "michael@mergington.edu")) before = false /\
     update_one (by_id (VStr "Chess"))
       (pull "participants" (VStr "michael@mergington.edu"))
       [(VStr "Chess",
          [("participants",
             VList [VStr "michael@mergington.edu"; VStr "daniel@mergington.edu";
                    VStr "michael@mergington.edu"])])]
     = (data_put (VStr "Chess")
          (dict_set "participants" (VList (before ++ after))
             [("participants",
                VList [VStr "michael@mergington.edu";
                       VStr "daniel@mergington.edu";
                       VStr "michael@mergington.edu"])])
          [(VStr "Chess",
             [("participants",
                VList [VStr "michael@mergington.edu";
                       VStr "daniel@mergington.edu";
                       VStr "michael@mergington.edu"])])], Ok 1) /\
     field "participants" (VStr "Chess")
       (fst (update_one (by_id (VStr "Chess"))
               (pull "participants" (VStr "michael@mergington.edu"))
               [(VStr "Chess",
                  [("participants",
                     VList [VStr "michael@mergington.edu";
                            VStr "daniel@mergington.edu";
                            VStr "michael@mergington.edu"])])]))
     = Some (VList (before ++ after))).
Proof.
  apply (pull_removes_one_occurrence
           [(VStr "Chess",
              [("participants",
                 VList [VStr "michael@mergington.edu";
                        VStr "daniel@mergington.edu";
                        VStr "michael@mergington.edu"])])]
           (by_id (VStr "Chess")) (VStr "Chess")
           [("participants",
              VList [VStr "michael@mergington.edu"; VStr "daniel@mergington.edu";
                     VStr "michael@mergington.edu"])]
           "participants"
           [VStr "michael@mergington.edu"; VStr "daniel@mergington.edu";
            VStr "michael@mergington.edu"]
           (VStr "michael@mergington.edu")).
  - eexists. split; vm_compute; reflexivity.
  - vm_compute. reflexivity.
  - reflexivity.
Defined.

(** In [id_pushed] the document inserted as ["a"] has the list [[1]] in
    its field ["_id"], and no query resolves to the key ["a"]: a [$pull]
    of 1 on that field raises [TypeError] and removes nothing. *)
Lemma pull_on_pushed_id_raises :
  field "_id" (VStr "a") id_pushed = Some (VList [VInt 1]) /\
  update_one (by_id (VStr "a")) (pull "_id" (VInt 1)) id_pushed
  = (id_pushed, Raise TypeError) /\
  field "_id" (VStr "a")
    (fst (update_one (by_id (VStr "a")) (pull "_id" (VInt 1)) id_pushed))
  <> Some (VList []).
Proof.
  repeat split; try (vm_compute; reflexivity).
  vm_compute. discriminate.
Qed.

(** ** Pipelines [aggregate] does not answer *)

(** C8, as the code has it: for a pipeline whose first two stages are
    mappings and whose [$unwind] operand is a string (or a false value),
    [aggregate] returns the empty list unless the pipeline has the
    supported shape: at least two stages, the first one with a [$unwind]
    that names [schedule_details.days] once its dollar signs are taken
    out, the second one with a [$group] that is not empty. *)
Theorem aggregate_unsupported
  (set_order : list value -> list value) (c : MockCollection)
  (pipeline : list value) :
  plain_stages pipeline ->
  ~ supported_shape pipeline ->
  aggregate set_order c pipeline = Ok [].
Proof.
  intros [Hdict Hstr] Hnot.
  destruct pipeline as [|stage0 [|stage1 more]]; try reflexivity.
  destruct (Hdict stage0) as [d0 ->]; [now left|].
  destruct (Hdict stage1) as [d1 ->]; [right; now left|].
  unfold aggregate. cbn [py_get py_getitem].
  destruct (dict_get "$unwind" d0) as [arg|] eqn:Eu; cbn [bind truthy];
    [|reflexivity].
  destruct (truthy arg) eqn:Et; [|reflexivity].
  destruct (Hstr d0 arg eq_refl Eu Et) as [s ->].
  destruct (dict_get "$group" d1) as [g|] eqn:Eg; cbn [bind truthy];
    [|reflexivity].
  destruct (truthy g) eqn:Etg; [|reflexivity].
  cbn [py_strip_dollar bind].
  destruct (String.eqb (strip_dollar s) "schedule_details.days") eqn:Es;
    [|reflexivity].
  exfalso. apply Hnot. exists (VDict d0), (VDict d1), more.
  split; [reflexivity|]. split.
  - exists s. cbn [py_get]. rewrite Eu. split; [reflexivity|].
    now apply String.eqb_eq.
  - exists g. cbn [py_get]. rewrite Eg. auto.
Qed.

Lemma aggregate_unsupported_witness :
  aggregate (fun days => days) seeded_activities
    [VDict [("$unwind", VStr "$participants")];
     VDict [("$group", VDict [("_id", VStr "$participants")])]]
  = Ok [].
Proof.
  apply (aggregate_unsupported (fun days => days) seeded_activities
           [VDict [("$unwind", VStr "$participants")];
            VDict [("$group", VDict [("_id", VStr "$participants")])]]).
  - split.
    + intros stage [<-|[<-|[]]]; eexists; reflexivity.
    + intros d arg Hd Hu _. injection Hd as <-. injection Hu as <-.
      eexists. reflexivity.
  - intros (stage0 & stage1 & more & Hp & (s & Hs & Hstrip) & _).
    injection Hp as <- _ _. injection Hs as <-. discriminate.
Defined.

(** C8, as the claim states it, fails: a pipeline that unwinds the
    participants with the operand of [$unwind] written as a mapping is not
    of the supported shape, and [aggregate] raises [AttributeError] on it
    instead of returning the empty list. *)
Lemma aggregate_unwind_document_raises :
  ~ supported_shape unwind_participants /\
  aggregate (fun days => days) seeded_activities unwind_participants
  = Raise AttributeError /\
  aggregate (fun days => days) seeded_activities unwind_participants
  <> Ok [].
Proof.
  split; [|split].
  - intros (stage0 & stage1 & more & Hp & (s & Hs & _) & _).
    injection Hp as <- _ _. discriminate.
  - reflexivity.
  - discriminate.
Qed.

(** ** What [update_one] keeps *)

Lemma for_each_preserves {A : Type} (P : MockCollection -> Prop)
  (f : A -> M unit) (l : list A) :
  (forall x, In x l -> forall c, P c -> P (fst (f x c))) ->
  forall c, P c -> P (fst (for_each f l c)).
Proof.
  induction l as [|x l IH]; intros Hf c Hc; [exact Hc|].
  cbn [for_each]. unfold bindM.
  assert (Hx : P (fst (f x c))) by (apply Hf; [now left|assumption]).
  destruct (f x c) as [c' [u|e]]; cbn [fst] in *; [|exact Hx].
  apply IH; [|exact Hx]. intros y Hy. apply Hf. now right.
Qed.

Lemma apply_op_preserves (P : MockCollection -> Prop) (op : string)
  (step : string -> value -> M unit) (update : value) :
  (forall entries,
      (arg <- py_getitem update op ;; py_items arg) = Ok entries ->
      forall fv, In fv entries ->
      forall c, P c -> P (fst (step (fst fv) (snd fv) c))) ->
  forall c, P c -> P (fst (apply_op op step update c)).
Proof.
  intros Hstep c Hc. unfold apply_op, bindM, lift.
  destruct (py_in (VStr op) update) as [[|]|e]; cbn [fst ret]; try exact Hc.
  destruct (arg <- py_getitem update op ;; py_items arg) as [entries|e] eqn:E;
    cbn [fst]; [|exact Hc].
  apply for_each_preserves; [|exact Hc].
  intros fv Hin. now apply (Hstep entries).
Qed.

Lemma update_one_preserves (P : MockCollection -> Prop)
  (query update : value) :
  (forall k entries,
      (arg <- py_getitem update "$push" ;; py_items arg) = Ok entries ->
      forall fv, In fv entries ->
      forall c, P c -> P (fst (push_one k (fst fv) (snd fv) c))) ->
  (forall k name v c, P c -> P (fst (pull_one k name v c))) ->
  forall c, P c -> P (fst (update_one query update c)).
Proof.
  intros Hpush Hpull c Hc. unfold update_one. unfold bindM at 1.
  destruct (find_one c query) as [[doc|]|e]; cbn [fst ret]; try exact Hc.
  destruct (negb (truthy (VDict doc))); cbn [fst ret]; [exact Hc|].
  unfold bindM at 1. unfold lift at 1.
  destruct (py_getitem (VDict doc) "_id") as [k|e]; cbn [fst]; [|exact Hc].
  unfold bindM at 1.
  assert (H1 : P (fst (apply_op "$push" (push_one k) update c))).
  { apply apply_op_preserves; [|exact Hc]. intros entries. apply Hpush. }
  destruct (apply_op "$push" (push_one k) update c) as [c1 [u|e]];
    cbn [fst] in *; [|exact H1].
  unfold bindM at 1.
  assert (H2 : P (fst (apply_op "$pull" (pull_one k) update c1))).
  { apply apply_op_preserves; [|exact H1]. intros entries _ fv _. apply Hpull. }
  destruct (apply_op "$pull" (pull_one k) update c1) as [c2 [u'|e]];
    cbn [fst ret] in *; exact H2.
Qed.

(** A round of either loop leaves the store as it is or writes, under a
    key it has, the body with one field changed. *)
Lemma push_one_cases (k : value) (name : string) (v : value)
  (c : MockCollection) :
  fst (push_one k name v c) = c \/
  exists body x,
    data_get k c = Ok body /\
    fst (push_one k name v c) = data_put k (dict_set name x body) c.
Proof.
  destruct (data_get k c) as [body|e] eqn:Hget.
  - rewrite (push_one_spec c k body name v Hget).
    destruct (dict_get name body) as [[| | |l|]|]; cbn [fst]; eauto.
  - left. unfold push_one, bindM, read. now rewrite Hget.
Qed.

Lemma pull_one_cases (k : value) (name : string) (v : value)
  (c : MockCollection) :
  fst (pull_one k name v c) = c \/
  exists body l x,
    data_get k c = Ok body /\
    dict_get name body = Some (VList l) /\
    fst (pull_one k name v c) = data_put k (dict_set name x body) c.
Proof.
  destruct (data_get k c) as [body|e] eqn:Hget.
  - rewrite (pull_one_spec c k body name v Hget).
    destruct (dict_get name body) as [[| | |l|]|] eqn:E; cbn [fst]; auto.
    destruct (existsb (fun y => py_eq y v) l); cbn [fst]; [|now left].
    right. eauto 6.
  - left. unfold pull_one, bindM, read. now rewrite Hget.
Qed.

(** [update_one] never adds, drops or renames a key of the store, whatever
    it is called with and whether it returns or raises. *)
Lemma update_one_keys (query update : value) (c : MockCollection) :
  map fst (fst (update_one query update c)) = map fst c.
Proof.
  apply (update_one_preserves (fun c' => map fst c' = map fst c));
    [| |reflexivity].
  - intros k _ _ [name v] _ c' Hc'. cbn [fst snd].
    destruct (push_one_cases k name v c') as [->|(body & x & Hget & ->)];
      [assumption|].
    destruct (data_get_find _ _ _ Hget) as [_ Hfind].
    now rewrite (data_put_keys _ _ _ _ Hfind).
  - intros k name v c' Hc'.
    destruct (pull_one_cases k name v c') as [->|(body & l & x & Hget & _ & ->)];
      [assumption|].
    destruct (data_get_find _ _ _ Hget) as [_ Hfind].
    now rewrite (data_put_keys _ _ _ _ Hfind).
Qed.

Lemma run_updates_keys (calls : list (value * value)) (c : MockCollection) :
  map fst (run_updates calls c) = map fst c.
Proof.
  revert c. induction calls as [|[query update] calls IH]; intros c;
    [reflexivity|].
  cbn [run_updates]. rewrite IH. apply update_one_keys.
Qed.

(** Writing a body with another field changed keeps the document under
    [k0] readable under [k0]. *)
Lemma keeps_id_put (k0 k : value) (body : dict) (name : string) (x : value)
  (c : MockCollection) :
  hashable k0 = true ->
  keeps_id k0 c ->
  data_get k c = Ok body ->
  (k = k0 -> name <> "_id") ->
  keeps_id k0 (data_put k (dict_set name x body) c).
Proof.
  intros Hk0 (body0 & Hfind0 & Hdict & Hid) Hget Hname.
  destruct (data_get_find _ _ _ Hget) as [Hk Hfind].
  destruct (py_eq k k0) eqn:E.
  - apply py_eq_hashable in E; [|assumption]. subst k.
    assert (body = body0) by congruence. subst body.
    exists (dict_set name x body0).
    split; [now apply data_find_put_same|].
    split; [now apply dict_set_is_dict|].
    rewrite dict_get_set_other; [assumption|].
    intros E. apply (Hname eq_refl). now symmetry.
  - exists body0. split; [|tauto].
    rewrite data_find_put_other; try assumption.
    intros ->. now rewrite py_eq_refl_hashable in E.
Qed.

Lemma no_id_push_entries (update : value) (entries : dict) :
  pushes_id update = false ->
  (arg <- py_getitem update "$push" ;; py_items arg) = Ok entries ->
  forall fv, In fv entries -> fst fv <> "_id".
Proof.
  unfold pushes_id, py_getitem. destruct update as [| | | |u]; try discriminate.
  destruct (dict_get "$push" u) as [arg|]; [|discriminate].
  cbn [bind]. destruct arg as [| | | |fields]; try discriminate.
  cbn [py_items]. intros Hmem Hent. injection Hent as <-.
  unfold dict_mem in Hmem.
  destruct (dict_get "_id" fields) eqn:E; [discriminate|].
  intros fv Hin Hfv. apply (dict_get_In_key _ _ E).
  rewrite <- Hfv. now apply in_map.
Qed.

Lemma update_one_keeps_id (k0 : value) (query update : value)
  (c : MockCollection) :
  hashable k0 = true ->
  pushes_id update = false ->
  keeps_id k0 c ->
  keeps_id k0 (fst (update_one query update c)).
Proof.
  intros Hk0 Hpush.
  apply (update_one_preserves (keeps_id k0)).
  - intros k entries Hent [name v] Hin c' Hc'. cbn [fst snd].
    destruct (push_one_cases k name v c') as [->|(body & x & Hget & ->)];
      [assumption|].
    apply keeps_id_put; try assumption.
    intros _. apply (no_id_push_entries update entries Hpush Hent (name, v) Hin).
  - intros k name v c' Hc'.
    destruct (pull_one_cases k name v c')
      as [->|(body & l & x & Hget & Hfield & ->)]; [assumption|].
    apply keeps_id_put; try assumption.
    intros -> ->. destruct Hc' as (body0 & Hfind0 & _ & Hid).
    destruct (data_get_find _ _ _ Hget) as [_ Hfind].
    assert (body = body0) by congruence. subst body.
    rewrite Hfield in Hid. destruct Hid as [Hid|Hid]; [discriminate|].
    injection Hid as <-. discriminate.
Qed.

(** C9, as the code has it: [update_one] never changes the keys of the
    store.  A document that is stored under [k] and read back under [k]
    (its body has no ["_id"] entry, as after [insert_one], or the entry
    [k], as after seeding) is still read back under [k], by [find_one]
    and by [find], after any sequence of [update_one] calls of which none
    has a [$push] on the field ["_id"]. *)
Theorem identifier_kept_without_id_push
  (calls : list (value * value)) (c : MockCollection) (k : value) :
  hashable k = true ->
  keeps_id k c ->
  Forall (fun call => pushes_id (snd call) = false) calls ->
  map fst (run_updates calls c) = map fst c /\
  exists body found,
    data_find k (run_updates calls c) = Some body /\
    find_one (run_updates calls c) (by_id k) = Ok (Some (with_id k body)) /\
    dict_get "_id" (with_id k body) = Some k /\
    find (run_updates calls c) VNone = Ok found /\
    In (with_id k body) found.
Proof.
  intros Hk Hkeeps Hcalls. split; [apply run_updates_keys|].
  assert (Hafter : keeps_id k (run_updates calls c)).
  { revert c Hkeeps.
    induction Hcalls as [|[query update] calls Hcall _ IH]; intros c Hkeeps;
      [exact Hkeeps|].
    cbn [run_updates]. apply IH. now apply update_one_keeps_id. }
  destruct Hafter as (body & Hfind & Hdict & Hid).
  exists body. eexists. split; [exact Hfind|]. split.
  { unfold by_id. rewrite (find_one_by_key _ [("_id", k)] k) by reflexivity.
    now rewrite Hk, Hfind. }
  split.
  { rewrite with_id_get_id by assumption.
    destruct Hid as [-> | ->]; reflexivity. }
  split; [reflexivity|].
  apply (in_map (fun kv => with_id (fst kv) (snd kv)) _ (k, body)).
  now apply data_find_In.
Qed.

Lemma identifier_kept_without_id_push_witness :
  map fst
    (run_updates
       [(by_id (VStr "a"), push "tags" (VInt 1));
        (VDict [("tags", VInt 7)], pull "tags" (VInt 1));
        (by_id (VStr "a"), pull "_id" (VStr "a"))]
       one_document)
  = map fst one_document /\
  exists body found,
    data_find (VStr "a")
      (run_updates
         [(by_id (VStr "a"), push "tags" (VInt 1));
          (VDict [("tags", VInt 7)], pull "tags" (VInt 1));
          (by_id (VStr "a"), pull "_id" (VStr "a"))]
         one_document) = Some body /\
    find_one
      (run_updates
         [(by_id (VStr "a"), push "tags" (VInt 1));
          (VDict [("tags", VInt 7)], pull "tags" (VInt 1));
          (by_id (VStr "a"), pull "_id" (VStr "a"))]
         one_document) (by_id (VStr "a"))
    = Ok (Some (with_id (VStr "a") body)) /\
    dict_get "_id" (with_id (VStr "a") body) = Some (VStr "a") /\
    find
      (run_updates
         [(by_id (VStr "a"), push "tags" (VInt 1));
          (VDict [("tags", VInt 7)], pull "tags" (VInt 1));
          (by_id (VStr "a"), pull "_id" (VStr "a"))]
         one_document) VNone = Ok found /\
    In (with_id (VStr "a") body) found.
Proof.
  apply (identifier_kept_without_id_push
           [(by_id (VStr "a"), push "tags" (VInt 1));
            (VDict [("tags", VInt 7)], pull "tags" (VInt 1));
            (by_id (VStr "a"), pull "_id" (VStr "a"))]
           one_document (VStr "a")).
  - reflexivity.
  - exists []. split; [reflexivity|]. split; [constructor|]. now left.
  - repeat constructor.
Defined.

(** C9, as the claim states it, fails: after [insert_one] of the document
    [{"_id": "a"}] and one [update_one] with a [$push] of 1 on ["_id"],
    the store still has the key ["a"], but [find_one] and [find] hand the
    document out under the identifier [[1]]. *)
Lemma id_push_changes_identifier :
  insert_one (VDict [("_id", VStr "a")]) [] = (one_document, Ok (VStr "a")) /\
  update_one (by_id (VStr "a")) (push "_id" (VInt 1)) one_document
  = (id_pushed, Ok 1) /\
  map fst id_pushed = [VStr "a"] /\
  find_one id_pushed (by_id (VStr "a")) = Ok (Some [("_id", VList [VInt 1])]) /\
  find id_pushed VNone = Ok [[("_id", VList [VInt 1])]] /\
  dict_get "_id" [("_id", VList [VInt 1])] <> Some (VStr "a").
Proof.
  repeat split; try (vm_compute; reflexivity).
  discriminate.
Qed.


(** * Further properties of the module *)

(** ** The matcher on single entries *)

Lemma matches_query_plain_keys_witness :
  matches_query chess_body
    (VDict [("max_participants", VDict [("$gte", VInt 10)]);
            ("schedule_details",
              VDict [("start_time", VStr "15:15")])]) = Ok true <->
  Forall (fun kv => entry_matches chess_body (fst kv) (snd kv) = Ok true)
    [("max_participants", VDict [("$gte", VInt 10)]);
     ("schedule_details", VDict [("start_time", VStr "15:15")])].
Proof.
  apply (matches_query_plain_keys chess_body
           [("max_participants", VDict [("$gte", VInt 10)]);
            ("schedule_details", VDict [("start_time", VStr "15:15")])]).
  intros kv [<-|[<-|[]]]; reflexivity.
Defined.

Lemma substringb_dot_cons (a : ascii) (s : string) :
  substringb "." (String a s) = Ascii.eqb "."%char a || substringb "." s.
Proof.
  cbn [substringb prefixb]. now rewrite andb_true_r.
Qed.

Lemma split_dot_nonempty (s : string) : split_dot s <> [].
Proof.
  destruct s as [|a s]; cbn [split_dot]; [discriminate|].
  destruct (Ascii.eqb a "."%char); [discriminate|].
  destruct (split_dot s); discriminate.
Qed.

(** A string without a dot is its own and only segment. *)
Lemma split_dot_plain (s : string) :
  substringb "." s = false -> split_dot s = [s].
Proof.
  induction s as [|a s IH]; [reflexivity|].
  rewrite substringb_dot_cons. intros H. apply orb_false_elim in H.
  destruct H as [Ha Hs]. cbn [split_dot].
  rewrite Ascii.eqb_sym, Ha. now rewrite IH.
Qed.

Lemma split_dot_dotted (a b : string) :
  substringb "." a = false ->
  split_dot (dotted a b) = a :: split_dot b.
Proof.
  unfold dotted. induction a as [|x a IH]; [reflexivity|].
  rewrite substringb_dot_cons. intros H. apply orb_false_elim in H.
  destruct H as [Hx Ha]. cbn [String.append split_dot].
  rewrite Ascii.eqb_sym, Hx. cbn [String.append] in IH. now rewrite IH.
Qed.

Lemma substringb_dotted (a b : string) : substringb "." (dotted a b) = true.
Proof.
  unfold dotted. induction a as [|x a IH]; [reflexivity|].
  cbn [String.append]. rewrite substringb_dot_cons.
  cbn [String.append] in IH. rewrite IH. apply orb_true_r.
Qed.

(** What the branch for dotted keys does with a key of two segments. *)
Lemma match_dotted_two (doc : dict) (a b : string) (v : value) :
  substringb "." a = false ->
  substringb "." b = false ->
  match_entry doc (dotted a b) v =
  match dict_get a doc with
  | None => Ok (Ret false)
  | Some current =>
      present <- py_in (VStr b) current ;;
      if negb present then Ok (Ret false)
      else
        match v with
        | VDict ops =>
            if dict_mem "$in" ops then
              field <- py_getitem current b ;;
              match field with
              | VList l =>
                  wanted <- py_getitem v "$in" ;;
                  items <- py_iter wanted ;;
                  Ok (Ret (existsb
                             (fun item => existsb (fun y => py_eq y item) l)
                             items))
              | _ => Ok (Ret false)
              end
            else if dict_mem "$gte" ops then
              field <- py_getitem current b ;;
              bound <- py_getitem v "$gte" ;;
              r <- py_cmp OGe field bound ;;
              Ok (Ret r)
            else if dict_mem "$lte" ops then
              field <- py_getitem current b ;;
              bound <- py_getitem v "$lte" ;;
              r <- py_cmp OLe field bound ;;
              Ok (Ret r)
            else Ok Next
        | _ =>
            field <- py_getitem current b ;;
            Ok (Ret (py_eq field v))
        end
  end.
Proof.
  intros Ha Hb. unfold match_entry. rewrite substringb_dotted.
  unfold match_dotted. rewrite (split_dot_dotted a b Ha), (split_dot_plain b Hb).
  cbn [removelast last navigate py_in bind]. unfold dict_mem at 1.
  unfold py_getitem at 1.
  destruct (dict_get a doc) as [current|]; reflexivity.
Qed.

(** A field the document does not have never matches and never raises,
    whatever is asked of it and whatever follows in the query: for a plain
    key, for a dotted key whose first segment is missing, and for a dotted
    key whose second segment is missing from the nested mapping. *)
Theorem missing_field_never_matches
  (doc : dict) (a b : string) (v : value) (rest : dict) :
  substringb "." a = false ->
  substringb "." b = false ->
  (dict_get a doc = None ->
   matches_query doc (VDict ((a, v) :: rest)) = Ok false /\
   matches_query doc (VDict ((dotted a b, v) :: rest)) = Ok false) /\
  (forall sub,
      dict_get a doc = Some (VDict sub) -> dict_get b sub = None ->
      matches_query doc (VDict ((dotted a b, v) :: rest)) = Ok false).
Proof.
  intros Ha Hb. unfold matches_query. cbn [py_items bind matches_loop].
  rewrite (match_dotted_two doc a b v Ha Hb). split.
  - intros Hnone. rewrite Hnone. split; [|reflexivity].
    unfold match_entry, match_plain. now rewrite Ha, Hnone.
  - intros sub Hsub Hnone. rewrite Hsub.
    cbn [py_in bind]. unfold dict_mem. now rewrite Hnone.
Qed.

Lemma missing_field_never_matches_witness :
  (dict_get "room" chess_body = None ->
   matches_query chess_body
     (VDict [("room", VStr "B12"); ("max_participants", VInt 12)]) = Ok false /\
   matches_query chess_body
     (VDict [(dotted "room" "floor", VStr "B12"); ("max_participants", VInt 12)])
   = Ok false) /\
  (forall sub,
      dict_get "room" chess_body = Some (VDict sub) ->
      dict_get "floor" sub = None ->
      matches_query chess_body
        (VDict [(dotted "room" "floor", VStr "B12");
                ("max_participants", VInt 12)]) = Ok false).
Proof.
  apply (missing_field_never_matches chess_body "room" "floor" (VStr "B12")
           [("max_participants", VInt 12)]); reflexivity.
Defined.

(** A dotted key of two segments with a value that is not a mapping: the
    matcher returns whether the nested field equals the value, and the
    entries that follow in the query have no say. *)
Theorem dotted_key_equality
  (doc sub : dict) (a b : string) (field v : value) (rest : dict) :
  substringb "." a = false ->
  substringb "." b = false ->
  dict_get a doc = Some (VDict sub) ->
  dict_get b sub = Some field ->
  (forall ops, v <> VDict ops) ->
  matches_query doc (VDict ((dotted a b, v) :: rest)) = Ok (py_eq field v).
Proof.
  intros Ha Hb Hsub Hfield Hv. unfold matches_query.
  cbn [py_items bind matches_loop].
  rewrite (match_dotted_two doc a b v Ha Hb), Hsub.
  cbn [py_in bind py_getitem]. unfold dict_mem. rewrite Hfield. cbn [negb bind].
  destruct v; try reflexivity. now destruct (Hv d).
Qed.

Lemma dotted_key_equality_witness :
  matches_query chess_body
    (VDict [(dotted "schedule_details" "start_time", VStr "15:15");
            ("max_participants", VInt 99)])
  = Ok (py_eq (VStr "15:15") (VStr "15:15")).
Proof.
  apply (dotted_key_equality chess_body [("start_time", VStr "15:15")]
           "schedule_details" "start_time" (VStr "15:15") (VStr "15:15")
           [("max_participants", VInt 99)]);
    try reflexivity.
  intros ops. discriminate.
Defined.

(** A dotted key of two segments with a mapping that has [$gte] and no
    [$in]: the matcher returns [field >= bound] and nothing more.  A
    [$lte] in the same mapping is not looked at, nor are the entries that
    follow in the query. *)
Theorem dotted_key_gte_only
  (doc sub : dict) (a b : string) (field bound : value) (ops rest : dict) :
  substringb "." a = false ->
  substringb "." b = false ->
  dict_get a doc = Some (VDict sub) ->
  dict_get b sub = Some field ->
  dict_get "$in" ops = None ->
  dict_get "$gte" ops = Some bound ->
  matches_query doc (VDict ((dotted a b, VDict ops) :: rest))
  = py_cmp OGe field bound.
Proof.
  intros Ha Hb Hsub Hfield Hin Hgte. unfold matches_query.
  cbn [py_items bind matches_loop].
  rewrite (match_dotted_two doc a b (VDict ops) Ha Hb), Hsub.
  cbn [py_in bind py_getitem]. unfold dict_mem.
  rewrite Hfield, Hin, Hgte. cbn [negb bind].
  destruct (py_cmp OGe field bound); reflexivity.
Qed.

Lemma dotted_key_gte_only_witness :
  matches_query chess_body
    (VDict [(dotted "schedule_details" "start_time",
              VDict [("$gte", VStr "15:00"); ("$lte", VStr "15:10")])])
  = py_cmp OGe (VStr "15:15") (VStr "15:00").
Proof.
  apply (dotted_key_gte_only chess_body [("start_time", VStr "15:15")]
           "schedule_details" "start_time" (VStr "15:15") (VStr "15:00")
           [("$gte", VStr "15:00"); ("$lte", VStr "15:10")] []);
    reflexivity.
Defined.

(** A dotted key of two segments with a mapping that has [$in] with a
    list: the nested field has to be a list itself, and the entry matches
    when one of the wanted values is an element of it.  A field that is
    not a list does not match. *)
Theorem dotted_key_in
  (doc sub : dict) (a b : string) (field : value) (items : list value)
  (ops rest : dict) :
  substringb "." a = false ->
  substringb "." b = false ->
  dict_get a doc = Some (VDict sub) ->
  dict_get b sub = Some field ->
  dict_get "$in" ops = Some (VList items) ->
  matches_query doc (VDict ((dotted a b, VDict ops) :: rest))
  = Ok match field with
       | VList l =>
           existsb (fun item => existsb (fun y => py_eq y item) l) items
       | _ => false
       end.
Proof.
  intros Ha Hb Hsub Hfield Hin. unfold matches_query.
  cbn [py_items bind matches_loop].
  rewrite (match_dotted_two doc a b (VDict ops) Ha Hb), Hsub.
  cbn [py_in bind py_getitem]. unfold dict_mem.
  rewrite Hfield, Hin. cbn [negb bind py_iter].
  destruct field; reflexivity.
Qed.

Lemma dotted_key_in_witness :
  matches_query
    [("schedule_details", VDict [("days", VList [VStr "Monday"; VStr "Friday"])])]
    (VDict [(dotted "schedule_details" "days",
              VDict [("$in", VList [VStr "Sunday"; VStr "Friday"])])])
  = Ok match VList [VStr "Monday"; VStr "Friday"] with
       | VList l =>
           existsb (fun item => existsb (fun y => py_eq y item) l)
             [VStr "Sunday"; VStr "Friday"]
       | _ => false
       end.
Proof.
  apply (dotted_key_in
           [("schedule_details",
              VDict [("days", VList [VStr "Monday"; VStr "Friday"])])]
           [("days", VList [VStr "Monday"; VStr "Friday"])]
           "schedule_details" "days" (VList [VStr "Monday"; VStr "Friday"])
           [VStr "Sunday"; VStr "Friday"]
           [("$in", VList [VStr "Sunday"; VStr "Friday"])] []);
    reflexivity.
Defined.

(** A plain key with the range [{"$gte": lo, "$lte": hi}] on an integer
    field: the entry matches exactly when [lo <= field <= hi]. *)
Theorem plain_key_range
  (doc : dict) (key : string) (x lo hi : Z) :
  substringb "." key = false ->
  dict_get key doc = Some (VInt x) ->
  entry_matches doc key (VDict [("$gte", VInt lo); ("$lte", VInt hi)])
  = Ok ((lo <=? x) && (x <=? hi)).
Proof.
  intros Hkey Hfield. rewrite (entry_matches_plain _ _ _ Hkey).
  unfold match_plain. rewrite Hfield.
  cbn [ops_loop String.eqb Ascii.eqb Bool.eqb py_cmp bind].
  destruct (Z.compare_spec x lo), (Z.compare_spec x hi); cbn;
    repeat match goal with
           | |- context [Z.leb ?p ?q] => destruct (Z.leb_spec p q)
           end; try reflexivity; lia.
Qed.

Lemma plain_key_range_witness :
  entry_matches chess_body "max_participants"
    (VDict [("$gte", VInt 10); ("$lte", VInt 20)])
  = Ok ((10 <=? 12) && (12 <=? 20)).
Proof.
  apply (plain_key_range chess_body "max_participants" 12 10 20);
    reflexivity.
Defined.

(** A plain key with [{"$in": [...]}]: the entry matches exactly when the
    field is an element of the list. *)
Theorem plain_key_in
  (doc : dict) (key : string) (field : value) (items : list value) :
  substringb "." key = false ->
  dict_get key doc = Some field ->
  entry_matches doc key (VDict [("$in", VList items)])
  = Ok (existsb (fun y => py_eq y field) items).
Proof.
  intros Hkey Hfield. rewrite (entry_matches_plain _ _ _ Hkey).
  unfold match_plain. rewrite Hfield.
  cbn [ops_loop String.eqb Ascii.eqb Bool.eqb py_in bind].
  destruct (existsb (fun y => py_eq y field) items); reflexivity.
Qed.

Lemma plain_key_in_witness :
  entry_matches chess_body "max_participants"
    (VDict [("$in", VList [VInt 10; VInt 12])])
  = Ok (existsb (fun y => py_eq y (VInt 12)) [VInt 10; VInt 12]).
Proof.
  apply (plain_key_in chess_body "max_participants" (VInt 12)
           [VInt 10; VInt 12]); reflexivity.
Defined.

Lemma ops_loop_no_operator (field : value) (ops : dict) :
  Forall (fun kv => String.eqb (fst kv) "$gte" = false /\
                    String.eqb (fst kv) "$lte" = false /\
                    String.eqb (fst kv) "$in" = false) ops ->
  ops_loop field ops = Ok true.
Proof.
  induction 1 as [|[op v] ops (H1 & H2 & H3) _ IH]; [reflexivity|].
  cbn [ops_loop fst] in *. now rewrite H1, H2, H3.
Qed.

(** A plain key with a mapping as its value is never compared with the
    field: the entries of the mapping are read as operators, and those
    that are not [$gte], [$lte] or [$in] are skipped.  So a mapping
    without these three matches every document that has the field. *)
Theorem plain_key_mapping_without_operators
  (doc : dict) (key : string) (field : value) (ops : dict) :
  substringb "." key = false ->
  dict_get key doc = Some field ->
  Forall (fun kv => String.eqb (fst kv) "$gte" = false /\
                    String.eqb (fst kv) "$lte" = false /\
                    String.eqb (fst kv) "$in" = false) ops ->
  entry_matches doc key (VDict ops) = Ok true.
Proof.
  intros Hkey Hfield Hops. rewrite (entry_matches_plain _ _ _ Hkey).
  unfold match_plain. rewrite Hfield.
  now rewrite (ops_loop_no_operator field ops Hops).
Qed.

Lemma plain_key_mapping_without_operators_witness :
  entry_matches chess_body "schedule_details"
    (VDict [("start_time", VStr "07:00")]) = Ok true.
Proof.
  apply (plain_key_mapping_without_operators chess_body "schedule_details"
           (VDict [("start_time", VStr "15:15")])
           [("start_time", VStr "07:00")]); try reflexivity.
  repeat constructor.
Defined.

(** ** [find] and [find_one] together *)

Lemma find_loop_filter (query : value) (c : MockCollection) :
  (forall kv, In kv c -> exists b, matches_query (snd kv) query = Ok b) ->
  find_loop query c =
  Ok (map (fun kv => with_id (fst kv) (snd kv))
        (filter (fun kv => is_match (snd kv) query) c)).
Proof.
  induction c as [|[k doc] c IH]; intros Hok; [reflexivity|].
  cbn [find_loop filter snd]. unfold is_match at 1.
  destruct (Hok (k, doc)) as [b Hb]; [now left|]. cbn [snd] in Hb.
  rewrite Hb. cbn [bind]. rewrite IH by (intros kv Hin; apply Hok; now right).
  cbn [bind]. destruct b; reflexivity.
Qed.

(** When the matcher raises on no stored body, [find] with a query that
    is not a false value returns the documents the matcher accepts, each
    with its key as ["_id"] in front, in the order of the store, and
    [count_documents] returns their number, which is at most the number
    of stored documents. *)
Theorem find_returns_the_matches (c : MockCollection) (query : value) :
  truthy query = true ->
  (forall kv, In kv c -> exists b, matches_query (snd kv) query = Ok b) ->
  find c query =
  Ok (map (fun kv => with_id (fst kv) (snd kv))
        (filter (fun kv => is_match (snd kv) query) c)) /\
  count_documents c query =
  Ok (Z.of_nat
        (List.length (filter (fun kv => is_match (snd kv) query) c))) /\
  (List.length (filter (fun kv => is_match (snd kv) query) c)
   <= List.length c)%nat.
Proof.
  intros Ht Hok. unfold count_documents. rewrite Ht. unfold find.
  rewrite Ht. cbn [negb].
  rewrite (find_loop_filter query c Hok). split; [reflexivity|].
  cbn [bind]. rewrite length_map. split; [reflexivity|].
  apply filter_length_le.
Qed.

Lemma find_returns_the_matches_witness :
  find seeded_activities (VDict [("max_participants", VInt 15)]) =
  Ok (map (fun kv => with_id (fst kv) (snd kv))
        (filter
           (fun kv => is_match (snd kv) (VDict [("max_participants", VInt 15)]))
           seeded_activities)) /\
  count_documents seeded_activities (VDict [("max_participants", VInt 15)]) =
  Ok (Z.of_nat
        (List.length
           (filter
              (fun kv =>
                 is_match (snd kv) (VDict [("max_participants", VInt 15)]))
              seeded_activities))) /\
  (List.length
     (filter
        (fun kv => is_match (snd kv) (VDict [("max_participants", VInt 15)]))
        seeded_activities)
   <= List.length seeded_activities)%nat.
Proof.
  apply (find_returns_the_matches seeded_activities
           (VDict [("max_participants", VInt 15)])).
  - reflexivity.
  - intros kv Hin.
    assert (H : forallb
                  (fun kv =>
                     match matches_query (snd kv)
                             (VDict [("max_participants", VInt 15)]) with
                     | Ok _ => true
                     | Raise _ => false
                     end) seeded_activities = true)
      by (vm_compute; reflexivity).
    rewrite forallb_forall in H. specialize (H kv Hin).
    destruct (matches_query (snd kv) (VDict [("max_participants", VInt 15)]));
      [eexists; reflexivity|discriminate].
Defined.

(** For a query mapping without the key ["_id"], [find_one] returns the
    first document of what [find] returns, and the not-found result when
    [find] returns nothing. *)
Theorem find_one_is_first_of_find
  (c : MockCollection) (q : dict) (results : list dict) :
  dict_mem "_id" q = false ->
  find c (VDict q) = Ok results ->
  find_one c (VDict q) = Ok (hd_error results).
Proof.
  intros Hid. unfold find_one, has_id_key. rewrite Hid. unfold find.
  destruct (truthy (VDict q)) eqn:Ht; cbn [negb].
  - revert results. induction c as [|[k doc] c IH]; intros results.
    + cbn. intros H. now injection H as <-.
    + cbn [find_loop scan].
      destruct (matches_query doc (VDict q)) as [[|]|e]; cbn [bind];
        try discriminate.
      * destruct (find_loop (VDict q) c); cbn [bind]; [|discriminate].
        intros H. now injection H as <-.
      * destruct (find_loop (VDict q) c) as [rest|e]; cbn [bind];
          [|discriminate].
        intros H. injection H as <-. now apply IH.
  - destruct q as [|entry q]; [|discriminate].
    intros H. injection H as <-.
    destruct c as [|[k doc] c]; reflexivity.
Qed.

Lemma find_one_is_first_of_find_witness :
  find_one seeded_activities (VDict [("max_participants", VInt 15)])
  = Ok (hd_error
          (map (fun kv => with_id (fst kv) (snd kv))
             (filter
                (fun kv =>
                   is_match (snd kv) (VDict [("max_participants", VInt 15)]))
                seeded_activities))).
Proof.
  apply (find_one_is_first_of_find seeded_activities
           [("max_participants", VInt 15)]).
  - reflexivity.
  - vm_compute. reflexivity.
Defined.

(** A query that is not a mapping (the default [None] of [find] among
    them) has no [items]: on a store that is not empty [find_one] raises
    [AttributeError], and so does [find] unless the query is a false
    value, in which case [find] returns every document.  On the empty
    store nothing is asked of the query and the results are empty. *)
Theorem query_that_is_no_mapping (c : MockCollection) (query : value) :
  (forall q, query <> VDict q) ->
  find_one [] query = Ok None /\
  find [] query = Ok [] /\
  (c <> [] ->
   find_one c query = Raise AttributeError /\
   find c query =
   (if truthy query then Raise AttributeError
    else Ok (map (fun kv => with_id (fst kv) (snd kv)) c))).
Proof.
  intros Hq.
  assert (Hid : has_id_key query = false)
    by (destruct query; try reflexivity; now destruct (Hq d)).
  assert (Hitems : py_items query = Raise AttributeError)
    by (destruct query; try reflexivity; now destruct (Hq d)).
  unfold find_one, find. rewrite Hid. split; [reflexivity|]. split.
  - destruct (truthy query); reflexivity.
  - intros Hc. destruct c as [|[k doc] c]; [contradiction|].
    cbn [scan find_loop]. unfold matches_query. rewrite Hitems. cbn [bind].
    split; [reflexivity|]. destruct (truthy query); reflexivity.
Qed.

Lemma query_that_is_no_mapping_witness :
  find_one [] VNone = Ok None /\
  find [] VNone = Ok [] /\
  (one_document <> [] ->
   find_one one_document VNone = Raise AttributeError /\
   find one_document VNone =
   (if truthy VNone then Raise AttributeError
    else Ok (map (fun kv => with_id (fst kv) (snd kv)) one_document))).
Proof.
  apply (query_that_is_no_mapping one_document VNone).
  intros q. discriminate.
Defined.

(** ** [insert_one] *)

Lemma data_put_same (k : value) (body : dict) (c : MockCollection) :
  data_find k c = Some body -> data_put k body c = c.
Proof.
  induction c as [|[k' b'] c IH]; cbn [data_find data_put]; [discriminate|].
  destruct (py_eq k' k); intros H; [congruence|]. now rewrite IH.
Qed.

Lemma data_put_new_key (k : value) (body : dict) (c : MockCollection) :
  data_find k c = None -> data_put k body c = (c ++ [(k, body)])%list.
Proof.
  induction c as [|[k' b'] c IH]; cbn [data_find data_put]; [reflexivity|].
  destruct (py_eq k' k); intros H; [discriminate|].
  cbn [app]. now rewrite IH.
Qed.

Lemma data_find_none_not_key (k : value) (c : MockCollection) :
  hashable k = true -> data_find k c = None -> ~ In k (map fst c).
Proof.
  intros Hk. induction c as [|[k' b'] c IH]; cbn [data_find map fst In];
    [tauto|].
  destruct (py_eq k' k) eqn:E; [discriminate|].
  intros Hnone [->|Hin]; [|now apply IH].
  now rewrite py_eq_refl_hashable in E.
Qed.

(** A document that cannot be stored makes [insert_one] raise and leaves
    the store as it was: [KeyError] for a mapping without ["_id"],
    [TypeError] for what is not a mapping and for an identifier that
    cannot be hashed. *)
Theorem insert_one_rejects (c : MockCollection) (document : value) :
  ~ storable document ->
  insert_one document c =
  (c, Raise match document with
            | VDict doc =>
                match dict_get "_id" doc with
                | None => KeyError
                | Some _ => TypeError
                end
            | _ => TypeError
            end).
Proof.
  intros Hno. unfold insert_one, bindM, lift, py_getitem.
  destruct document as [| | | |doc]; try reflexivity.
  destruct (dict_get "_id" doc) as [doc_id|] eqn:E; [|reflexivity].
  cbn [py_items]. unfold data_set.
  destruct (hashable doc_id) eqn:Eh; [|reflexivity].
  exfalso. apply Hno. exists doc, doc_id. auto.
Qed.

Lemma insert_one_rejects_witness :
  insert_one (VDict [("description", VStr "No identifier")]) seeded_activities
  = (seeded_activities,
     Raise match VDict [("description", VStr "No identifier")] with
           | VDict doc =>
               match dict_get "_id" doc with
               | None => KeyError
               | Some _ => TypeError
               end
           | _ => TypeError
           end).
Proof.
  apply (insert_one_rejects seeded_activities
           (VDict [("description", VStr "No identifier")])).
  intros (d & doc_id & Hd & Hid & _). injection Hd as <-. discriminate.
Defined.

(** [insert_one] under an identifier the store already has replaces the
    body in place and raises no duplicate-key error: the keys and the
    number of documents stay the same.  Under a new identifier the
    document goes last.  The documents under other keys are untouched. *)
Theorem insert_one_overwrites_or_appends
  (c : MockCollection) (doc : dict) (doc_id : value) :
  dict_get "_id" doc = Some doc_id ->
  hashable doc_id = true ->
  exists c',
    insert_one (VDict doc) c = (c', Ok doc_id) /\
    data_find doc_id c' = Some (dict_del "_id" doc) /\
    map fst c' =
    (match data_find doc_id c with
     | Some _ => map fst c
     | None => map fst c ++ [doc_id]
     end)%list /\
    count_documents c' VNone =
    Ok (Z.of_nat (List.length c) +
        match data_find doc_id c with Some _ => 0 | None => 1 end) /\
    (forall k, hashable k = true -> k <> doc_id ->
               data_find k c' = data_find k c).
Proof.
  intros Hid Hh. exists (data_put doc_id (dict_del "_id" doc) c).
  split; [now apply insert_one_ok|].
  split; [now apply data_find_put_same|].
  assert (Hkeys : map fst (data_put doc_id (dict_del "_id" doc) c) =
                  (match data_find doc_id c with
                   | Some _ => map fst c
                   | None => map fst c ++ [doc_id]
                   end)%list).
  { destruct (data_find doc_id c) as [old|] eqn:E.
    - now apply data_put_keys with (body' := old).
    - rewrite data_put_new_key by assumption. now rewrite map_app. }
  split; [exact Hkeys|]. split.
  - unfold count_documents, find. cbn [truthy negb bind].
    rewrite length_map, <- (length_map fst), Hkeys.
    destruct (data_find doc_id c).
    + rewrite length_map. f_equal. lia.
    + rewrite length_app, length_map. cbn [List.length]. f_equal. lia.
  - intros k Hk Hne. apply data_find_put_other; auto.
Qed.

Lemma insert_one_overwrites_or_appends_witness :
  exists c',
    insert_one (VDict [("_id", VStr "Chess Club"); ("max_participants", VInt 1)])
      seeded_activities = (c', Ok (VStr "Chess Club")) /\
    data_find (VStr "Chess Club") c' =
    Some (dict_del "_id"
            [("_id", VStr "Chess Club"); ("max_participants", VInt 1)]) /\
    map fst c' =
    (match data_find (VStr "Chess Club") seeded_activities with
     | Some _ => map fst seeded_activities
     | None => map fst seeded_activities ++ [VStr "Chess Club"]
     end)%list /\
    count_documents c' VNone =
    Ok (Z.of_nat (List.length seeded_activities) +
        match data_find (VStr "Chess Club") seeded_activities with
        | Some _ => 0
        | None => 1
        end) /\
    (forall k, hashable k = true -> k <> VStr "Chess Club" ->
               data_find k c' = data_find k seeded_activities).
Proof.
  apply (insert_one_overwrites_or_appends seeded_activities
           [("_id", VStr "Chess Club"); ("max_participants", VInt 1)]
           (VStr "Chess Club")); reflexivity.
Defined.

Lemma insert_one_cases (document : value) (c : MockCollection) :
  fst (insert_one document c) = c \/
  exists doc doc_id,
    document = VDict doc /\ dict_get "_id" doc = Some doc_id /\
    hashable doc_id = true /\
    fst (insert_one document c) = data_put doc_id (dict_del "_id" doc) c.
Proof.
  unfold insert_one, bindM, lift, py_getitem.
  destruct document as [| | | |doc]; try (now left).
  destruct (dict_get "_id" doc) as [doc_id|] eqn:E; [|now left].
  cbn [py_items]. unfold data_set.
  destruct (hashable doc_id) eqn:Eh; [|now left].
  right. exists doc, doc_id. auto.
Qed.

Lemma data_put_Forall (P : value * dict -> Prop) (k : value) (body : dict)
  (c : MockCollection) :
  hashable k = true ->
  Forall P c -> P (k, body) -> Forall P (data_put k body c).
Proof.
  intros Hk Hc Hb. induction Hc as [|[k' b'] c Hkv Hc IH]; cbn [data_put].
  - now constructor.
  - destruct (py_eq k' k) eqn:E.
    + apply py_eq_hashable in E; [|assumption]. subst k'.
      now constructor.
    + now constructor.
Qed.

Lemma insert_all_without_id (documents : list value) (c : MockCollection) :
  bodies_without_id c -> bodies_without_id (insert_all documents c).
Proof.
  revert c. induction documents as [|document rest IH]; intros c Hc;
    [exact Hc|].
  cbn [insert_all]. apply IH.
  destruct (insert_one_cases document c)
    as [->|(doc & doc_id & _ & _ & Hh & ->)]; [exact Hc|].
  apply data_put_Forall; [assumption|exact Hc|].
  cbn [snd]. apply dict_get_del_same.
Qed.

(** [insert_one] stores a body without its ["_id"] entry, and the matcher
    sees the body only.  So in a collection filled by [insert_one] a query
    that starts with the key ["_id"] makes [find] return nothing and
    [count_documents] return 0, whatever the identifier asked for, while
    [find_one] with a query on the identifier finds every document the
    store has under a key. *)
Theorem find_by_id_misses_inserted
  (documents : list value) (v : value) (rest : dict) :
  find (insert_all documents []) (VDict (("_id", v) :: rest)) = Ok [] /\
  count_documents (insert_all documents []) (VDict (("_id", v) :: rest))
  = Ok 0 /\
  (forall k body,
      hashable k = true ->
      data_find k (insert_all documents []) = Some body ->
      find_one (insert_all documents []) (by_id k) = Ok (Some (with_id k body))).
Proof.
  assert (Hno : bodies_without_id (insert_all documents []))
    by (apply insert_all_without_id; constructor).
  assert (Hfind : find (insert_all documents []) (VDict (("_id", v) :: rest))
                  = Ok []).
  { unfold find. cbn [truthy negb].
    induction Hno as [|[k body] c Hbody _ IH]; [reflexivity|].
    cbn [find_loop]. rewrite IH. cbn [snd] in Hbody.
    unfold matches_query. cbn [py_items bind matches_loop].
    unfold match_entry. cbn [substringb prefixb Ascii.eqb Bool.eqb andb orb].
    unfold match_plain. now rewrite Hbody. }
  split; [exact Hfind|]. split.
  - unfold count_documents. cbn [truthy]. now rewrite Hfind.
  - intros k body Hk Hbody. unfold by_id.
    rewrite (find_one_by_key _ [("_id", k)] k) by reflexivity.
    now rewrite Hk, Hbody.
Qed.

(** ** [__init__] *)


Lemma data_put_unique_keys (k : value) (body : dict) (c : MockCollection) :
  hashable k = true -> unique_keys c -> unique_keys (data_put k body c).
Proof.
  intros Hk [Hnd Hh]. unfold unique_keys.
  destruct (data_find k c) as [old|] eqn:E.
  - rewrite (data_put_keys k body old c E). now split.
  - rewrite (data_put_new_key k body c E), map_app. cbn [map fst]. split.
    + apply NoDup_app; [assumption|repeat constructor; tauto|].
      intros x Hin [<-|[]]. revert Hin. now apply data_find_none_not_key.
    + apply Forall_app. split; [assumption|]. now repeat constructor.
Qed.

(** [__init__] goes through when every item is a mapping with an
    ["_id"] that can be hashed, and raises otherwise. *)
Theorem init_succeeds_iff (initial_data : list value) :
  (exists c, init initial_data = Ok c) <-> Forall storable initial_data.
Proof.
  unfold init. generalize (@nil (value * dict)) as c0.
  induction initial_data as [|item rest IH]; intros c0.
  - split; [constructor|]. intros _. now exists c0.
  - cbn [init_loop]. unfold py_getitem, py_items, data_set. split.
    + intros [c H]. destruct item as [| | | |d]; try discriminate.
      destruct (dict_get "_id" d) as [doc_id|] eqn:E; [|discriminate].
      cbn [bind] in H. destruct (hashable doc_id) eqn:Eh; [|discriminate].
      cbn [bind] in H. constructor.
      * exists d, doc_id. auto.
      * apply (IH (data_put doc_id d c0)). now exists c.
    + intros H. inversion H as [|? ? (d & doc_id & -> & Hid & Hh) Hrest]; subst.
      rewrite Hid. cbn [bind]. rewrite Hh. cbn [bind].
      now apply IH.
Qed.





(** ** The keys of the store *)

(** Neither [insert_one] nor [update_one] ever leaves the store with two
    documents under one key or with a key that cannot be hashed, whatever
    they are called with and whether they return or raise. *)
Theorem keys_stay_unique
  (c : MockCollection) (document query update : value) :
  unique_keys c ->
  unique_keys (fst (insert_one document c)) /\
  unique_keys (fst (update_one query update c)).
Proof.
  intros Hc. split.
  - destruct (insert_one_cases document c)
      as [->|(doc & doc_id & _ & _ & Hh & ->)]; [exact Hc|].
    now apply data_put_unique_keys.
  - unfold unique_keys. now rewrite update_one_keys.
Qed.

Lemma keys_stay_unique_witness :
  unique_keys
    (fst (insert_one (VDict [("_id", VStr "Chess Club")]) seeded_activities)) /\
  unique_keys
    (fst (update_one (by_id (VStr "Chess Club"))
            (push "participants" (VStr "zoe@mergington.edu"))
            seeded_activities)).
Proof.
  apply (keys_stay_unique seeded_activities
           (VDict [("_id", VStr "Chess Club")]) (by_id (VStr "Chess Club"))
           (push "participants" (VStr "zoe@mergington.edu"))).
  unfold unique_keys. vm_compute. split.
  - repeat (constructor; [simpl; intuition discriminate|]). constructor.
  - repeat constructor.
Defined.

(** ** [update_one] on what it does not support *)

Lemma dict_set_keeps_key (k k' : string) (v : value) (d : dict) :
  dict_mem k d = true -> dict_mem k (dict_set k' v d) = true.
Proof.
  unfold dict_mem. destruct (String.eqb k k') eqn:E.
  - apply String.eqb_eq in E. subst k'. now rewrite dict_get_set_same.
  - apply String.eqb_neq in E. now rewrite dict_get_set_other.
Qed.

Lemma with_id_has_id (k : value) (body : dict) :
  exists v, dict_get "_id" (with_id k body) = Some v.
Proof.
  assert (G : forall d base,
             dict_mem "_id" base = true ->
             dict_mem "_id" (dict_update base d) = true).
  { unfold dict_update. induction d as [|[k1 v1] d IH]; intros base Hb;
      [exact Hb|].
    cbn [fold_left fst snd]. apply IH. now apply dict_set_keeps_key. }
  specialize (G body [("_id", k)] eq_refl). unfold dict_mem in G.
  fold (with_id k body) in G.
  destruct (dict_get "_id" (with_id k body)) as [v|]; [|discriminate].
  now exists v.
Qed.

(** Whatever [find_one] hands out has an ["_id"] entry. *)
Lemma find_one_has_id (c : MockCollection) (query : value) (doc : dict) :
  find_one c query = Ok (Some doc) ->
  exists k, dict_get "_id" doc = Some k.
Proof.
  unfold find_one. destruct (has_id_key query).
  - destruct (py_getitem query "_id") as [doc_id|]; [|discriminate].
    cbn [bind]. destruct (data_mem doc_id c) as [[|]|]; try discriminate.
    cbn [bind]. destruct (data_get doc_id c) as [body|]; [|discriminate].
    cbn [bind]. intros H. injection H as <-. apply with_id_has_id.
  - induction c as [|[k body] c IH]; [discriminate|].
    cbn [scan]. destruct (matches_query body query) as [[|]|]; cbn [bind];
      try discriminate; [|exact IH].
    intros H. injection H as <-. apply with_id_has_id.
Qed.

(** An update without [$push] and [$pull] (a [$set], say, or the empty
    mapping) changes nothing, raises nothing, and still reports one
    modified document whenever the query finds one. *)
Theorem update_one_ignores_other_operators
  (c : MockCollection) (query : value) (u doc : dict) :
  find_one c query = Ok (Some doc) ->
  dict_get "$push" u = None ->
  dict_get "$pull" u = None ->
  update_one query (VDict u) c = (c, Ok 1).
Proof.
  intros Hfind Hpush Hpull.
  destruct (find_one_has_id c query doc Hfind) as [k Hk].
  rewrite (update_one_found c query (VDict u) k)
    by (exists doc; auto).
  unfold apply_op, bindM, lift, ret, py_in, dict_mem.
  now rewrite Hpush, Hpull.
Qed.

Lemma update_one_ignores_other_operators_witness :
  update_one (by_id (VStr "Chess Club"))
    (VDict [("$set", VDict [("max_participants", VInt 40)])])
    seeded_activities
  = (seeded_activities, Ok 1).
Proof.
  apply (update_one_ignores_other_operators seeded_activities
           (by_id (VStr "Chess Club"))
           [("$set", VDict [("max_participants", VInt 40)])]
           (with_id (VStr "Chess Club")
              match data_find (VStr "Chess Club") seeded_activities with
              | Some body => body
              | None => []
              end)).
  - vm_compute. reflexivity.
  - reflexivity.
  - reflexivity.
Defined.

(** A [$push] on a field that is there and is not a list raises
    [AttributeError] and leaves the store as it was. *)
Theorem push_on_non_list_raises
  (c : MockCollection) (query k : value) (body : dict) (name : string)
  (x v : value) :
  resolves_to c query k ->
  data_get k c = Ok body ->
  dict_get name body = Some x ->
  (forall l, x <> VList l) ->
  update_one query (push name v) c = (c, Raise AttributeError).
Proof.
  intros Hres Hget Hfield Hx.
  rewrite (update_one_push c query k name v Hres).
  rewrite (push_one_spec c k body name v Hget), Hfield.
  destruct x; try reflexivity. now destruct (Hx l).
Qed.

Lemma push_on_non_list_raises_witness :
  update_one (by_id (VStr "mchen")) (push "role" (VStr "admin"))
    (seeded_teachers (fun password => password))
  = (seeded_teachers (fun password => password), Raise AttributeError).
Proof.
  apply (push_on_non_list_raises (seeded_teachers (fun password => password))
           (by_id (VStr "mchen")) (VStr "mchen")
           [("_id", VStr "mchen"); ("display_name", VStr "Mr. Chen");
            ("password", VStr "chess456"); ("role", VStr "teacher")]
           "role" (VStr "teacher") (VStr "admin")).
  - eexists. split; vm_compute; reflexivity.
  - vm_compute. reflexivity.
  - reflexivity.
  - intros l. discriminate.
Defined.

(** A [$pull] on a field that is missing or is not a list changes
    nothing (the field is not created) and reports one modified
    document. *)
Theorem pull_on_non_list_is_no_op
  (c : MockCollection) (query k : value) (body : dict) (name : string)
  (v : value) :
  resolves_to c query k ->
  data_get k c = Ok body ->
  (forall l, dict_get name body <> Some (VList l)) ->
  update_one query (pull name v) c = (c, Ok 1).
Proof.
  intros Hres Hget Hfield.
  rewrite (update_one_pull c query k name v Hres).
  rewrite (pull_one_spec c k body name v Hget).
  destruct (dict_get name body) as [[| | |l|]|]; try reflexivity.
  now destruct (Hfield l).
Qed.

Lemma pull_on_non_list_is_no_op_witness :
  update_one (by_id (VStr "mchen")) (pull "classes" (VStr "Chess"))
    (seeded_teachers (fun password => password))
  = (seeded_teachers (fun password => password), Ok 1).
Proof.
  apply (pull_on_non_list_is_no_op (seeded_teachers (fun password => password))
           (by_id (VStr "mchen")) (VStr "mchen")
           [("_id", VStr "mchen"); ("display_name", VStr "Mr. Chen");
            ("password", VStr "chess456"); ("role", VStr "teacher")]
           "classes" (VStr "Chess")).
  - eexists. split; vm_compute; reflexivity.
  - vm_compute. reflexivity.
  - intros l. discriminate.
Defined.

(** ** [$push] and [$pull] together *)

Lemma dict_set_same (k : string) (v : value) (d : dict) :
  dict_get k d = Some v -> dict_set k v d = d.
Proof.
  induction d as [|[k1 v1] d IH]; cbn [dict_get dict_set]; [discriminate|].
  destruct (String.eqb k k1); intros H; [congruence|]. now rewrite IH.
Qed.

Lemma remove_first_last (v : value) (l : list value) :
  existsb (fun y => py_eq y v) l = false ->
  py_eq v v = true ->
  remove_first v (l ++ [v]) = l.
Proof.
  intros Hl Hv. induction l as [|y l IH]; cbn [app remove_first].
  - now rewrite Hv.
  - cbn [existsb] in Hl. apply orb_false_elim in Hl. destruct Hl as [Hy Hl].
    rewrite Hy. now rewrite IH.
Qed.

(** A [$push] of a value the list field does not hold yet, followed by a
    [$pull] of the same value, brings the whole store back to what it
    was.  (The value has to equal itself, as every Python value does;
    the [$push] puts it last and the [$pull] takes out the first element
    equal to it, which is that one.) *)
Theorem push_then_pull_restores
  (c : MockCollection) (q1 q2 k : value) (body : dict) (name : string)
  (l : list value) (v : value) :
  resolves_to c q1 k ->
  data_get k c = Ok body ->
  dict_get name body = Some (VList l) ->
  existsb (fun y => py_eq y v) l = false ->
  py_eq v v = true ->
  resolves_to (fst (update_one q1 (push name v) c)) q2 k ->
  update_one q1 (push name v) c =
  (data_put k (dict_set name (VList (l ++ [v])) body) c, Ok 1) /\
  update_one q2 (pull name v) (fst (update_one q1 (push name v) c))
  = (c, Ok 1).
Proof.
  intros Hres Hget Hfield Hl Hv.
  destruct (data_get_find _ _ _ Hget) as [Hk Hfind].
  rewrite (update_one_push c q1 k name v Hres).
  rewrite (push_one_spec c k body name v Hget), Hfield. cbn [fst].
  intros Hres2. split; [reflexivity|].
  rewrite (update_one_pull _ q2 k name v Hres2).
  rewrite (pull_one_spec _ k _ name v (data_get_put_same k _ c Hk)).
  rewrite dict_get_set_same.
  rewrite existsb_app. cbn [existsb]. rewrite Hv, orb_true_r.
  rewrite (remove_first_last v l Hl Hv).
  rewrite dict_set_set, data_put_put by assumption.
  rewrite (dict_set_same name (VList l) body Hfield).
  now rewrite (data_put_same k body c Hfind).
Qed.

Lemma push_then_pull_restores_witness :
  update_one (by_id (VStr "Math Club"))
    (push "participants" (VStr "zoe@mergington.edu")) seeded_activities =
  (data_put (VStr "Math Club")
     (dict_set "participants"
        (VList ([VStr "james@mergington.edu"; VStr "benjamin@mergington.edu"]
                ++ [VStr "zoe@mergington.edu"]))
        match data_find (VStr "Math Club") seeded_activities with
        | Some body => body
        | None => []
        end)
     seeded_activities, Ok 1) /\
  update_one (VDict [("max_participants", VInt 10)])
    (pull "participants" (VStr "zoe@mergington.edu"))
    (fst (update_one (by_id (VStr "Math Club"))
            (push "participants" (VStr "zoe@mergington.edu"))
            seeded_activities))
  = (seeded_activities, Ok 1).
Proof.
  apply (push_then_pull_restores seeded_activities
           (by_id (VStr "Math Club")) (VDict [("max_participants", VInt 10)])
           (VStr "Math Club")
           match data_find (VStr "Math Club") seeded_activities with
           | Some body => body
           | None => []
           end
           "participants"
           [VStr "james@mergington.edu"; VStr "benjamin@mergington.edu"]
           (VStr "zoe@mergington.edu")).
  - eexists. split; vm_compute; reflexivity.
  - vm_compute. reflexivity.
  - vm_compute. reflexivity.
  - reflexivity.
  - reflexivity.
  - eexists. split; vm_compute; reflexivity.
Defined.

Lemma update_steps_preserve (P : MockCollection -> Prop) (k : value)
  (update : value) :
  (forall name v c, P c -> P (fst (push_one k name v c))) ->
  (forall name v c, P c -> P (fst (pull_one k name v c))) ->
  forall c, P c ->
  P (fst ((_ <~ apply_op "$push" (push_one k) update ;;
           _ <~ apply_op "$pull" (pull_one k) update ;;
           ret 1) c)).
Proof.
  intros Hpush Hpull c Hc. unfold bindM at 1.
  assert (H1 : P (fst (apply_op "$push" (push_one k) update c))).
  { apply apply_op_preserves; [|exact Hc]. intros _ _ fv _. apply Hpush. }
  destruct (apply_op "$push" (push_one k) update c) as [c1 [u|e]];
    cbn [fst] in *; [|exact H1].
  unfold bindM at 1.
  assert (H2 : P (fst (apply_op "$pull" (pull_one k) update c1))).
  { apply apply_op_preserves; [|exact H1]. intros _ _ fv _. apply Hpull. }
  destruct (apply_op "$pull" (pull_one k) update c1) as [c2 [u'|e]];
    cbn [fst ret] in *; exact H2.
Qed.

(** [update_one] touches one document at most: when its query resolves
    to the document stored under [k], the body under every other key is
    after the call what it was before, whatever the update holds and
    whether the call returns or raises. *)
Theorem update_one_leaves_other_documents
  (c : MockCollection) (query update k k' : value) :
  resolves_to c query k ->
  hashable k' = true ->
  k' <> k ->
  data_find k' (fst (update_one query update c)) = data_find k' c.
Proof.
  intros Hres Hk' Hne. rewrite (update_one_found c query update k Hres).
  apply (update_steps_preserve
           (fun c' => data_find k' c' = data_find k' c)); [| |reflexivity].
  - intros name v c' Hc'.
    destruct (push_one_cases k name v c') as [->|(body & x & Hget & ->)];
      [assumption|].
    destruct (data_get_find _ _ _ Hget) as [Hk _].
    rewrite data_find_put_other; auto.
  - intros name v c' Hc'.
    destruct (pull_one_cases k name v c')
      as [->|(body & l & x & Hget & _ & ->)]; [assumption|].
    destruct (data_get_find _ _ _ Hget) as [Hk _].
    rewrite data_find_put_other; auto.
Qed.

Lemma update_one_leaves_other_documents_witness :
  data_find (VStr "mrodriguez")
    (fst (update_one (by_id (VStr "mchen"))
            (VDict [("$push", VDict [("classes", VStr "Chess");
                                     ("role", VStr "admin")])])
            (seeded_teachers (fun password => password))))
  = data_find (VStr "mrodriguez") (seeded_teachers (fun password => password)).
Proof.
  apply (update_one_leaves_other_documents
           (seeded_teachers (fun password => password))
           (by_id (VStr "mchen"))
           (VDict [("$push", VDict [("classes", VStr "Chess");
                                    ("role", VStr "admin")])])
           (VStr "mchen") (VStr "mrodriguez")).
  - eexists. split; vm_compute; reflexivity.
  - reflexivity.
  - discriminate.
Defined.

(** A [$push] on several fields is not undone when it fails half-way:
    with a first field the body does not have and a second field that is
    not a list, the call raises [AttributeError] and the store keeps the
    first field, created with its one value. *)
Theorem push_on_two_fields_stops_half_way
  (c : MockCollection) (query k : value) (body : dict)
  (name1 name2 : string) (v1 v2 x : value) :
  resolves_to c query k ->
  data_get k c = Ok body ->
  dict_get name1 body = None ->
  dict_get name2 body = Some x ->
  (forall l, x <> VList l) ->
  update_one query (VDict [("$push", VDict [(name1, v1); (name2, v2)])]) c
  = (data_put k (dict_set name1 (VList [v1]) body) c, Raise AttributeError).
Proof.
  intros Hres Hget H1 H2 Hx.
  destruct (data_get_find _ _ _ Hget) as [Hk _].
  assert (Hne : name2 <> name1) by (intros ->; congruence).
  rewrite (update_one_found c query _ k Hres).
  remember (push_one k) as step eqn:Hstep.
  unfold apply_op, bindM, lift, ret. cbn. unfold bindM, ret. subst step.
  rewrite (push_one_spec c k body name1 v1 Hget), H1.
  rewrite (push_one_spec _ k _ name2 v2 (data_get_put_same k _ c Hk)).
  rewrite (dict_get_set_other name2 name1 _ body Hne), H2.
  destruct x; try reflexivity. now destruct (Hx l).
Qed.

Lemma push_on_two_fields_stops_half_way_witness :
  update_one (by_id (VStr "mchen"))
    (VDict [("$push", VDict [("classes", VStr "Chess");
                             ("role", VStr "admin")])])
    (seeded_teachers (fun password => password))
  = (data_put (VStr "mchen")
       (dict_set "classes" (VList [VStr "Chess"])
          [("_id", VStr "mchen"); ("display_name", VStr "Mr. Chen");
           ("password", VStr "chess456"); ("role", VStr "teacher")])
       (seeded_teachers (fun password => password)),
     Raise AttributeError).
Proof.
  apply (push_on_two_fields_stops_half_way
           (seeded_teachers (fun password => password))
           (by_id (VStr "mchen")) (VStr "mchen")
           [("_id", VStr "mchen"); ("display_name", VStr "Mr. Chen");
            ("password", VStr "chess456"); ("role", VStr "teacher")]
           "classes" "role" (VStr "Chess") (VStr "admin") (VStr "teacher")).
  - eexists. split; vm_compute; reflexivity.
  - vm_compute. reflexivity.
  - reflexivity.
  - reflexivity.
  - intros l. discriminate.
Defined.


(** ** [aggregate] on any collection *)

Lemma existsb_py_eq_In (day : value) (days : list value) :
  hashable day = true ->
  existsb (fun y => py_eq y day) days = true <-> In day days.
Proof.
  intros Hh. rewrite existsb_exists. split.
  - intros (y & Hin & Heq). apply py_eq_hashable in Heq; [|assumption].
    now subst y.
  - intros Hin. exists day. split; [assumption|].
    now apply py_eq_refl_hashable.
Qed.

Lemma add_all_spec (new days : list value) :
  Forall (fun day => hashable day = true) new ->
  NoDup days ->
  exists days',
    add_all new days = Ok days' /\
    NoDup days' /\
    (forall x, In x days' <-> In x days \/ In x new).
Proof.
  intros Hnew. revert days.
  induction Hnew as [|day new Hh _ IH]; intros days Hnd.
  - exists days. cbn. intuition.
  - cbn [add_all]. unfold set_add. rewrite Hh. cbn [bind].
    destruct (existsb (fun y => py_eq y day) days) eqn:E.
    + apply (existsb_py_eq_In day days Hh) in E.
      destruct (IH days Hnd) as (days' & Hadd & Hnd' & Hin).
      exists days'. split; [assumption|]. split; [assumption|].
      intros x. rewrite Hin. cbn [In]. intuition (subst; auto).
    + assert (Hnot : ~ In day days).
      { intros Hin. apply (existsb_py_eq_In day days Hh) in Hin. congruence. }
      destruct (IH (days ++ [day])%list) as (days' & Hadd & Hnd' & Hin).
      { apply NoDup_app; [assumption|repeat constructor; tauto|].
        intros x Hx [<-|[]]. contradiction. }
      exists days'. split; [assumption|]. split; [assumption|].
      intros x. rewrite Hin, in_app_iff. cbn [In]. intuition.
Qed.

Lemma collect_days_spec (c : MockCollection) (days : list value) :
  Forall (fun kv => schedule_well_formed (snd kv)) c ->
  NoDup days ->
  exists days',
    collect_days c days = Ok days' /\
    NoDup days' /\
    (forall x,
        In x days' <->
        In x days \/ exists kv, In kv c /\ lists_day (snd kv) x).
Proof.
  intros Hc. revert days.
  induction Hc as [|[k doc] c Hdoc _ IH]; intros days Hnd.
  - exists days. cbn. split; [reflexivity|]. split; [assumption|].
    intros x. split; [tauto|]. intros [H|(kv & [] & _)]. exact H.
  - cbn [collect_days]. cbn [snd] in Hdoc. unfold schedule_well_formed in Hdoc.
    assert (Hskip :
              (forall x, ~ lists_day doc x) ->
              exists days',
                collect_days c days = Ok days' /\ NoDup days' /\
                (forall x,
                    In x days' <->
                    In x days \/
                    exists kv, In kv ((k, doc) :: c) /\ lists_day (snd kv) x)).
    { intros Hnone. destruct (IH days Hnd) as (days' & Hcol & Hnd' & Hin).
      exists days'. split; [assumption|]. split; [assumption|].
      intros x. rewrite Hin. split.
      - intros [H|(kv & Hkv & Hl)]; [now left|].
        right. exists kv. split; [now right|assumption].
      - intros [H|(kv & [<-|Hkv] & Hl)]; [now left| |].
        + now destruct (Hnone x).
        + right. now exists kv. }
    destruct (dict_get "schedule_details" doc) as [details|] eqn:Ed.
    + destruct details as [| | | |details]; try contradiction.
      cbn [py_in bind]. unfold dict_mem.
      destruct (dict_get "days" details) as [listed|] eqn:El.
      * destruct listed as [| | |l|]; try contradiction.
        cbn [py_getitem]. rewrite El. cbn [bind py_iter].
        destruct (add_all_spec l days Hdoc Hnd) as (days1 & Hadd & Hnd1 & Hin1).
        rewrite Hadd. cbn [bind].
        destruct (IH days1 Hnd1) as (days' & Hcol & Hnd' & Hin).
        exists days'. split; [assumption|]. split; [assumption|].
        intros x. rewrite Hin, Hin1. split.
        -- intros [[H|H]|(kv & Hkv & Hl)].
           ++ now left.
           ++ right. exists (k, doc). split; [now left|].
              exists details, l. auto.
           ++ right. exists kv. split; [now right|assumption].
        -- intros [H|(kv & [<-|Hkv] & Hl)].
           ++ left. now left.
           ++ destruct Hl as (details' & l' & Hd' & Hl' & Hx).
              cbn [snd] in Hd'. rewrite Ed in Hd'. injection Hd' as <-.
              rewrite El in Hl'. injection Hl' as <-. left. now right.
           ++ right. now exists kv.
      * apply Hskip. intros x (details' & l' & Hd' & Hl' & _).
        rewrite Ed in Hd'. injection Hd' as <-. congruence.
    + apply Hskip. intros x (details' & l' & Hd' & _). congruence.
Qed.

Lemma insert_sorted_perm (key : value -> Z) (x : value) (l : list value) :
  Permutation (insert_sorted key x l) (x :: l).
Proof.
  induction l as [|y l IH]; cbn [insert_sorted]; [reflexivity|].
  destruct (key x <=? key y); [reflexivity|].
  rewrite IH. apply perm_swap.
Qed.

Lemma sorted_perm (key : value -> Z) (l : list value) :
  Permutation (sorted key l) l.
Proof.
  induction l as [|x l IH]; cbn [sorted]; [reflexivity|].
  rewrite insert_sorted_perm. now constructor.
Qed.

Lemma insert_sorted_sorted (key : value -> Z) (x : value) (l : list value) :
  StronglySorted (fun a b => key a <= key b) l ->
  StronglySorted (fun a b => key a <= key b) (insert_sorted key x l).
Proof.
  induction 1 as [|y l Hs IH Hall]; cbn [insert_sorted].
  - repeat constructor.
  - destruct (Z.leb_spec (key x) (key y)).
    + constructor; [now constructor|].
      constructor; [assumption|].
      eapply Forall_impl; [|exact Hall]. cbn. intros z Hz. lia.
    + constructor; [assumption|].
      apply Forall_forall. intros z Hz.
      apply (Permutation_in _ (insert_sorted_perm key x l)) in Hz.
      destruct Hz as [<-|Hz]; [lia|].
      rewrite Forall_forall in Hall. now apply Hall.
Qed.

Lemma sorted_sorted (key : value -> Z) (l : list value) :
  StronglySorted (fun a b => key a <= key b) (sorted key l).
Proof.
  induction l as [|x l IH]; cbn [sorted]; [constructor|].
  now apply insert_sorted_sorted.
Qed.

(** On any collection whose schedules are well formed, and in whatever
    order Python walks the set of days, a pipeline of the supported shape
    makes [aggregate] return one document [{"_id": day}] for every day
    that some stored document lists, each day once, ordered by the key of
    the sort: Monday to Sunday first, every other value after them. *)
Theorem aggregate_lists_each_day_once
  (set_order : list value -> list value) (c : MockCollection)
  (group : value) (more : list value) :
  (forall l, Permutation (set_order l) l) ->
  truthy group = true ->
  Forall (fun kv => schedule_well_formed (snd kv)) c ->
  exists days,
    aggregate set_order c
      (VDict [("$unwind", VStr "$schedule_details.days")]
       :: VDict [("$group", group)] :: more)
    = Ok (map (fun day => [("_id", day)]) days) /\
    NoDup days /\
    (forall day,
        In day days <-> exists kv, In kv c /\ lists_day (snd kv) day) /\
    StronglySorted (fun a b => day_key a <= day_key b) days.
Proof.
  intros Hperm Hgroup Hc.
  destruct (collect_days_spec c [] Hc (NoDup_nil _))
    as (days & Hcol & Hnd & Hin).
  exists (sorted day_key (set_order days)).
  rewrite (aggregate_days set_order c group more Hgroup), Hcol. cbn [bind].
  assert (P : Permutation (sorted day_key (set_order days)) days)
    by (rewrite sorted_perm; apply Hperm).
  split; [reflexivity|]. split; [|split].
  - apply (Permutation_NoDup (Permutation_sym P) Hnd).
  - intros day. split.
    + intros H. apply (Permutation_in _ P) in H. apply Hin in H.
      destruct H as [[]|H]. exact H.
    + intros H. apply (Permutation_in _ (Permutation_sym P)).
      apply Hin. now right.
  - apply sorted_sorted.
Qed.

Lemma aggregate_lists_each_day_once_witness :
  exists days,
    aggregate (fun days => rev days)
      [(VStr "Yoga",
         [("schedule_details",
            VDict [("days", VList [VStr "Holiday"; VStr "Sunday"])])]);
       (VStr "Chess",
         [("schedule_details",
            VDict [("days", VList [VStr "Sunday"; VStr "Monday"])])]);
       (VStr "Note", [("text", VStr "no schedule")])]
      [VDict [("$unwind", VStr "$schedule_details.days")];
       VDict [("$group", VDict [("_id", VStr "$schedule_details.days")])]]
    = Ok (map (fun day => [("_id", day)]) days) /\
    NoDup days /\
    (forall day,
        In day days <->
        exists kv,
          In kv
            [(VStr "Yoga",
               [("schedule_details",
                  VDict [("days", VList [VStr "Holiday"; VStr "Sunday"])])]);
             (VStr "Chess",
               [("schedule_details",
                  VDict [("days", VList [VStr "Sunday"; VStr "Monday"])])]);
             (VStr "Note", [("text", VStr "no schedule")])] /\
          lists_day (snd kv) day) /\
    StronglySorted (fun a b => day_key a <= day_key b) days.
Proof.
  apply (aggregate_lists_each_day_once (fun days => rev days)
           [(VStr "Yoga",
              [("schedule_details",
                 VDict [("days", VList [VStr "Holiday"; VStr "Sunday"])])]);
            (VStr "Chess",
              [("schedule_details",
                 VDict [("days", VList [VStr "Sunday"; VStr "Monday"])])]);
            (VStr "Note", [("text", VStr "no schedule")])]
           (VDict [("_id", VStr "$schedule_details.days")]) []).
  - intros l. apply Permutation_sym, Permutation_rev.
  - reflexivity.
  - repeat constructor.
Defined.
